(** * bge-m3 mock embedding server: a shallow embedding of
      [docker/bge-m3-mock/server.py] and the properties of its handlers.

    The server is a small Flask application.  Its behaviour rests on
    three pieces of the Python runtime, which are embedded here as
    executable definitions so that every handler can be evaluated:

    - [hashlib.sha256] (FIPS 180-4), module [Hashlib];
    - [random.Random] (CPython's [_randommodule.c], the Mersenne Twister
      MT19937 seeded through [init_by_array]), module [PyRandom];
    - the builtins the handlers call ([str], [int], [range],
      [str.encode], [dict.get], truthiness), module [Py].

    Machine words are integers of [Z] with the wrap-around written out
    ([u32]); Python [int]s are [Z]; a Python [str] is the list of its code
    points; [bytes] is a list of integers below 256.  A float is the
    rational it denotes: the float expressions of the program are exact
    (lemma [uniform_exact]).  The generators are objects of a heap that
    the computations thread, and exceptions are results ([Py.M]).

    The file has the model first, then the definitions of the statements,
    reference values that the model reproduces, lemmas, and the claims
    about the server. *)

From Stdlib Require Import ZArith QArith Lqa Lia List String Ascii DecimalString.
From stdpp Require Import base tactics option list numbers gmap.

Import ListNotations.
Local Open Scope Z_scope.

(** ** Machine words *)

(** Truncation of a C [uint32_t] store. *)
Definition u32 (x : Z) : Z := x mod 2 ^ 32.

(** [x << n] on a [uint32_t]. *)
Definition shl32 (x n : Z) : Z := u32 (x ≪ n).

Definition xor (x y : Z) : Z := Z.lxor x y.

(** A Python [bytes] object, and a Python [str] (its code points). *)
Definition bytes := list Z.
Definition str := list Z.

(** String literals of the source: the code points of an ASCII literal. *)
Fixpoint lit (s : string) : str :=
  match s with
  | EmptyString => []
  | String a s' => Z.of_N (N_of_ascii a) :: lit s'
  end.

(** ** hashlib.sha256 *)

Module Hashlib.

Definition rotr (n x : Z) : Z := Z.lor (x ≫ n) (shl32 x (32 - n)).

Definition Ch (x y z : Z) : Z :=
  xor (Z.land x y) (Z.land (xor x (2 ^ 32 - 1)) z).
Definition Maj (x y z : Z) : Z :=
  xor (xor (Z.land x y) (Z.land x z)) (Z.land y z).
Definition bsig0 (x : Z) : Z := xor (xor (rotr 2 x) (rotr 13 x)) (rotr 22 x).
Definition bsig1 (x : Z) : Z := xor (xor (rotr 6 x) (rotr 11 x)) (rotr 25 x).
Definition ssig0 (x : Z) : Z := xor (xor (rotr 7 x) (rotr 18 x)) (x ≫ 3).
Definition ssig1 (x : Z) : Z := xor (xor (rotr 17 x) (rotr 19 x)) (x ≫ 10).

(** Round constants: the first 32 bits of the fractional parts of the
    cube roots of the first 64 primes. *)
Definition round_constants : list Z :=
  [ 1116352408; 1899447441; 3049323471; 3921009573;
    961987163; 1508970993; 2453635748; 2870763221;
    3624381080; 310598401; 607225278; 1426881987;
    1925078388; 2162078206; 2614888103; 3248222580;
    3835390401; 4022224774; 264347078; 604807628;
    770255983; 1249150122; 1555081692; 1996064986;
    2554220882; 2821834349; 2952996808; 3210313671;
    3336571891; 3584528711; 113926993; 338241895;
    666307205; 773529912; 1294757372; 1396182291;
    1695183700; 1986661051; 2177026350; 2456956037;
    2730485921; 2820302411; 3259730800; 3345764771;
    3516065817; 3600352804; 4094571909; 275423344;
    430227734; 506948616; 659060556; 883997877;
    958139571; 1322822218; 1537002063; 1747873779;
    1955562222; 2024104815; 2227730452; 2361852424;
    2428436474; 2756734187; 3204031479; 3329325298 ].

(** Initial hash value: fractional parts of the square roots of the
    first 8 primes. *)
Definition initial_hash : list Z :=
  [ 1779033703; 3144134277; 1013904242; 2773480762;
    1359893119; 2600822924; 528734635; 1541459225 ].

(** Big-endian encodings. *)
Fixpoint be_bytes (n : nat) (x : Z) : bytes :=
  match n with
  | O => []
  | S n' => (x ≫ (8 * Z.of_nat n')) mod 256 :: be_bytes n' x
  end.

Definition be_int (bs : bytes) : Z :=
  fold_left (fun acc b => acc * 256 + b) bs 0.

(** Padding: a 1 bit, zeros up to 56 mod 64 bytes, the bit length on 64
    bits. *)
Definition pad (msg : bytes) : bytes :=
  let len := Z.of_nat (length msg) in
  msg ++ [128] ++ replicate (Z.to_nat ((55 - len) mod 64)) 0
      ++ be_bytes 8 (8 * len).

(** The [i]-th 64-byte block as 16 big-endian words. *)
Definition block_words (padded : bytes) (i : nat) : list Z :=
  let block := take 64 (drop (64 * i) padded) in
  map (fun j => be_int (take 4 (drop (4 * j) block))) (seq 0 16).

(** Message schedule: [n] more words after those of [w]. *)
Fixpoint schedule (n : nat) (w : list Z) : list Z :=
  match n with
  | O => w
  | S n' =>
      let t := length w in
      schedule n'
        (w ++ [u32 (ssig1 (w !!! (t - 2)%nat) + w !!! (t - 7)%nat
                    + ssig0 (w !!! (t - 15)%nat) + w !!! (t - 16)%nat)])
  end.

(** One round on the working variables [a..h]. *)
Definition round (v : list Z) (kw : Z * Z) : list Z :=
  match v with
  | [a; b; c; d; e; f; g; h] =>
      let t1 := h + bsig1 e + Ch e f g + fst kw + snd kw in
      let t2 := bsig0 a + Maj a b c in
      [u32 (t1 + t2); a; b; c; u32 (d + t1); e; f; g]
  | _ => v
  end.

Definition compress (hash : list Z) (block : list Z) : list Z :=
  let w := schedule 48 block in
  let v := fold_left round (zip round_constants w) hash in
  zip_with (fun x y => u32 (x + y)) hash v.

(** [hashlib.sha256(data).digest()] *)
Definition sha256 (data : bytes) : bytes :=
  let padded := pad data in
  let hash :=
    fold_left (fun h i => compress h (block_words padded i))
              (seq 0 (length padded / 64)) initial_hash in
  concat (map (be_bytes 4) hash).

Definition hex_digit (d : Z) : Z := if d <? 10 then 48 + d else 87 + d.

(** [hashlib.sha256(data).hexdigest()]: two lower-case hexadecimal
    digits per byte. *)
Definition hexdigest (digest : bytes) : str :=
  concat (map (fun b => [hex_digit (b / 16); hex_digit (b mod 16)]) digest).

End Hashlib.

(** ** random.Random

    CPython's [Random] object ([Modules/_randommodule.c]): the MT19937
    state of 624 words and the position of the next word. *)

Module PyRandom.

Definition MT_N : nat := 624.
Definition MT_M : nat := 397.
Definition MATRIX_A : Z := 2567483615.   (* 0x9908b0df *)
Definition UPPER_MASK : Z := 2147483648. (* 0x80000000 *)
Definition LOWER_MASK : Z := 2147483647. (* 0x7fffffff *)

Record RandomObject : Type := mkRandom { state : list Z; index : nat }.

(** [init_genrand(self, s)] *)
Definition init_genrand (s : Z) : RandomObject :=
  let step (mt : list Z) (mti : nat) :=
    let prev := mt !!! (mti - 1)%nat in
    <[mti := u32 (1812433253 * xor prev (prev ≫ 30) + Z.of_nat mti)]> mt in
  {| state := fold_left step (seq 1 (MT_N - 1)) (u32 s :: replicate (MT_N - 1) 0);
     index := MT_N |}.

(** The wrap of [i] at the end of both loops of [init_by_array]:
    [if (i>=N) { mt[0] = mt[N-1]; i=1; }]. *)
Definition wrap_i (i : nat) (mt : list Z) : nat * list Z :=
  if (MT_N <=? i)%nat then (1%nat, <[0%nat := mt !!! (MT_N - 1)%nat]> mt)
  else (i, mt).

(** First loop of [init_by_array], [k] iterations left. *)
Fixpoint init_key_loop (k : nat) (init_key : list Z) (i j : nat)
    (mt : list Z) : nat * list Z :=
  match k with
  | O => (i, mt)
  | S k' =>
      let prev := mt !!! (i - 1)%nat in
      let mt := <[i := u32 (xor (mt !!! i) (u32 (xor prev (prev ≫ 30) * 1664525))
                            + init_key !!! j + Z.of_nat j)]> mt in
      let '(i, mt) := wrap_i (S i) mt in
      let j := if (length init_key <=? S j)%nat then 0%nat else S j in
      init_key_loop k' init_key i j mt
  end.

(** Second loop of [init_by_array], [k] iterations left. *)
Fixpoint init_mix_loop (k : nat) (i : nat) (mt : list Z) : list Z :=
  match k with
  | O => mt
  | S k' =>
      let prev := mt !!! (i - 1)%nat in
      let mt := <[i := u32 (xor (mt !!! i) (u32 (xor prev (prev ≫ 30) * 1566083941))
                            - Z.of_nat i)]> mt in
      let '(i, mt) := wrap_i (S i) mt in
      init_mix_loop k' i mt
  end.

(** [init_by_array(self, init_key, key_length)] *)
Definition init_by_array (init_key : list Z) : RandomObject :=
  let g := init_genrand 19650218 in
  let '(i, mt) :=
    init_key_loop (Nat.max MT_N (length init_key)) init_key 1 0 (state g) in
  let mt := init_mix_loop (MT_N - 1) i mt in
  {| state := <[0%nat := UPPER_MASK]> mt; index := index g |}.

(** [random_seed] on an [int] argument: the absolute value, cut into
    32-bit chunks from the right, is the key of [init_by_array]. *)
Definition seed_key (n : Z) : list Z :=
  let n := Z.abs n in
  let bits := if n =? 0 then 0 else Z.log2 n + 1 in
  let keyused := if bits =? 0 then 1 else (bits - 1) / 32 + 1 in
  map (fun i => (n ≫ (32 * Z.of_nat i)) mod 2 ^ 32) (seq 0 (Z.to_nat keyused)).

(** [random.Random(x)] for an [int] [x]. *)
Definition seed (x : Z) : RandomObject := init_by_array (seed_key x).

Definition mag01 (bit : Z) : Z := if bit =? 0 then 0 else MATRIX_A.

(** [mt[kk] = mt[src] ^ (y >> 1) ^ mag01[y & 1]] with
    [y = (mt[kk]&UPPER_MASK)|(mt[next]&LOWER_MASK)]. *)
Definition twist_word (kk next src : nat) (mt : list Z) : list Z :=
  let y := Z.lor (Z.land (mt !!! kk) UPPER_MASK) (Z.land (mt !!! next) LOWER_MASK) in
  <[kk := u32 (xor (xor (mt !!! src) (y ≫ 1)) (mag01 (Z.land y 1)))]> mt.

(** Generation of [N] words at one time. *)
Definition twist (mt : list Z) : list Z :=
  let mt := fold_left (fun mt kk => twist_word kk (kk + 1) (kk + MT_M) mt)
                      (seq 0 (MT_N - MT_M)) mt in
  let mt := fold_left (fun mt kk => twist_word kk (kk + 1) (kk + MT_M - MT_N) mt)
                      (seq (MT_N - MT_M) (MT_M - 1)) mt in
  twist_word (MT_N - 1) 0 (MT_M - 1) mt.

Definition temper (y : Z) : Z :=
  let y := xor y (y ≫ 11) in
  let y := xor y (Z.land (shl32 y 7) 2636928640) in   (* 0x9d2c5680 *)
  let y := xor y (Z.land (shl32 y 15) 4022730752) in  (* 0xefc60000 *)
  u32 (xor y (y ≫ 18)).

(** [genrand_uint32(self)] *)
Definition genrand_uint32 (g : RandomObject) : Z * RandomObject :=
  let g := if (MT_N <=? index g)%nat
           then {| state := twist (state g); index := 0 |} else g in
  (temper (state g !!! index g), {| state := state g; index := S (index g) |}).

(** [random_random]: a 53-bit integer scaled into [0, 1).
    [(a*67108864.0+b)*(1.0/9007199254740992.0)], with [a] and [b] the top
    27 and 26 bits of two outputs. *)
Definition random (g : RandomObject) : Q * RandomObject :=
  let '(y1, g) := genrand_uint32 g in
  let '(y2, g) := genrand_uint32 g in
  let a := y1 ≫ 5 in
  let b := y2 ≫ 6 in
  (((inject_Z a * 67108864 + inject_Z b) * (1 / 9007199254740992))%Q, g).

(** [Random.uniform(self, a, b)]: [a + (b - a) * self.random()].  The
    rational is the float of the program where the operations do not
    round, as for the bounds [-1.0] and [1.0] of the server. *)
Definition uniform (a b : Q) (g : RandomObject) : Q * RandomObject :=
  let '(r, g) := random g in
  ((a + (b - a) * r)%Q, g).

End PyRandom.

(** ** Python values, exceptions and builtins *)

Module Py.

(** The exceptions the server can raise. [SystemError] stands for a
    dangling object reference, which no Python program can build. *)
Inductive exn : Type :=
| AttributeError
| UnicodeEncodeError
| ValueError
| SystemError.

Inductive result (A : Type) : Type :=
| Return (a : A)
| Raise (e : exn).
Arguments Return {A} a.
Arguments Raise {A} e.

Definition result_bind {A B} (r : result A) (k : A → result B) : result B :=
  match r with
  | Return a => k a
  | Raise e => Raise e
  end.

Definition result_map {A B} (f : A → B) (r : result A) : result B :=
  result_bind r (fun a => Return (f a)).

(** *** The interpreter state

    The only mutable objects of the program are the generators built by
    [random.Random(seed)].  The heap holds them; a reference is an
    index into it.  Computations thread the heap and may raise. *)
Abbreviation heap := (list PyRandom.RandomObject).
Abbreviation ref := nat.
Definition M (A : Type) : Type := heap → result A * heap.

Definition ret {A} (a : A) : M A := fun h => (Return a, h).
Definition raise {A} (e : exn) : M A := fun h => (Raise e, h).
Definition bind {A B} (m : M A) (k : A → M B) : M B :=
  fun h => match m h with
           | (Return a, h') => k a h'
           | (Raise e, h') => (Raise e, h')
           end.
Definition lift {A} (r : result A) : M A := fun h => (r, h).

Declare Scope py_scope.
Delimit Scope py_scope with py.
Notation "x <- m ;; k" := (bind m (fun x => k))
  (at level 100, m at next level, right associativity) : py_scope.

(** A list comprehension [[f(x) for x in l]]. *)
Fixpoint list_comp {A B} (f : A → M B) (l : list A) : M (list B) :=
  match l with
  | [] => ret []
  | x :: l' => (y <- f x ;; ys <- list_comp f l' ;; ret (y :: ys))%py
  end.

(** [range(n)] *)
Definition range (n : Z) : list Z := map Z.of_nat (seq 0 (Z.to_nat n)).

(** [random.Random(seed)]: a new generator object. *)
Definition Random (seed : Z) : M ref :=
  fun h => (Return (length h), h ++ [PyRandom.seed seed]).

(** [rng.uniform(a, b)]: draws from the object and advances it. *)
Definition uniform (rng : ref) (a b : Q) : M Q :=
  fun h => match h !! rng with
           | Some g => let '(x, g') := PyRandom.uniform a b g in
                       (Return x, <[rng := g']> h)
           | None => (Raise SystemError, h)
           end.

(** *** str.encode("utf-8")

    The strict codec: a surrogate code point has no encoding and raises
    [UnicodeEncodeError]. *)
Definition utf8_char (c : Z) : option bytes :=
  if c <? 0 then None
  else if c <? 128 then Some [c]
  else if c <? 2048 then Some [192 + c ≫ 6; 128 + c mod 64]
  else if (55296 <=? c) && (c <=? 57343) then None
  else if c <? 65536 then
    Some [224 + c ≫ 12; 128 + (c ≫ 6) mod 64; 128 + c mod 64]
  else if c <=? 1114111 then
    Some [240 + c ≫ 18; 128 + (c ≫ 12) mod 64; 128 + (c ≫ 6) mod 64;
          128 + c mod 64]
  else None.

Fixpoint encode_utf8 (s : str) : result bytes :=
  match s with
  | [] => Return []
  | c :: s' =>
      match utf8_char c with
      | Some bs => result_map (app bs) (encode_utf8 s')
      | None => Raise UnicodeEncodeError
      end
  end.

(** The strings that [encode] accepts: sequences of Unicode scalar
    values (code points that are not surrogates). *)
Definition is_scalar_value (c : Z) : bool :=
  ((0 <=? c) && (c <? 55296)) || ((57343 <? c) && (c <=? 1114111)).
Definition encodable (s : str) : bool := forallb is_scalar_value s.

(** *** The Unicode tables of the runtime

    [int] and [repr] consult CPython's Unicode database for the code
    points outside ASCII; [repr] of a [float] is the shortest decimal
    that reads back.  The tables and the float printer are taken as they
    are. *)
Inductive pyfloat : Type :=
| Finite (x : Q)
| NegZero
| Infinity (negative : bool)
| NaN.

Class Runtime : Type := {
  Py_UNICODE_ISPRINTABLE : Z → bool;
  Py_UNICODE_ISSPACE : Z → bool;
  Py_UNICODE_TODECIMAL : Z → option Z;
  float_repr : pyfloat → str;
  (* sys.int_max_str_digits: 4300 since Python 3.11, 0 for no limit *)
  int_max_str_digits : nat;
}.

(** *** int(s, base), for base 10 and 16 *)

(** [Py_ISSPACE] *)
Definition Py_ISSPACE (c : Z) : bool := (c =? 32) || ((9 <=? c) && (c <=? 13)).

(** [_PyLong_DigitValue], below [base] *)
Definition digit_value (base c : Z) : option Z :=
  let d := if (48 <=? c) && (c <=? 57) then c - 48
           else if (97 <=? c) && (c <=? 122) then c - 87
           else if (65 <=? c) && (c <=? 90) then c - 55
           else 37 in
  if d <? base then Some d else None.

(** The digits and single underscores of a literal: the value, the
    number of digits and what follows them.  [prev] tells whether the
    previous character was an underscore. *)
Fixpoint scan_digits (base : Z) (prev : bool) (acc : Z) (n : nat) (s : str)
    : option (Z * nat * str) :=
  match s with
  | [] => if prev then None else Some (acc, n, [])
  | c :: s' =>
      if c =? 95 then
        if prev then None else scan_digits base true acc n s'
      else
        match digit_value base c with
        | Some d => scan_digits base false (acc * base + d) (S n) s'
        | None => if prev then None else Some (acc, n, s)
        end
  end.

Fixpoint skip_space (s : str) : str :=
  match s with
  | c :: s' => if Py_ISSPACE c then skip_space s' else s
  | [] => []
  end.

(** An optional sign. *)
Definition strip_sign (s : str) : Z * str :=
  match s with
  | c :: s' => if c =? 43 then (1, s') else if c =? 45 then (-1, s') else (1, s)
  | [] => (1, s)
  end.

(** In base 16, an optional [0x] or [0X], and one underscore after it. *)
Definition strip_prefix (base : Z) (s : str) : str :=
  match s with
  | c :: x :: s' =>
      if (base =? 16) && (c =? 48) && ((x =? 120) || (x =? 88)) then
        match s' with
        | u :: s'' => if u =? 95 then s'' else s'
        | [] => s'
        end
      else s
  | _ => s
  end.

Definition starts_with_underscore (s : str) : bool :=
  match s with
  | c :: _ => c =? 95
  | [] => false
  end.

(** The limit on the digits of a literal, which the bases that are a
    power of two escape. *)
Definition over_digit_limit `{Runtime} (base : Z) (digits : nat) : bool :=
  negb ((base =? 2) || (base =? 4) || (base =? 8) || (base =? 16) || (base =? 32))
  && (640 <? digits)%nat
  && (0 <? int_max_str_digits)%nat && (int_max_str_digits <? digits)%nat.

(** [PyLong_FromString] on the ASCII form of the text: spaces, sign,
    prefix, at least one digit, spaces, and nothing else. *)
Definition long_from_string `{Runtime} (base : Z) (s : str) : result Z :=
  let '(sign, s) := strip_sign (skip_space s) in
  let s := strip_prefix base s in
  if starts_with_underscore s then Raise ValueError
  else
    match scan_digits base false 0 0 s with
    | Some (v, S n, rest) =>
        if over_digit_limit base (S n) then Raise ValueError
        else
          match skip_space rest with
          | [] => Return (sign * v)
          | _ :: _ => Raise ValueError
          end
    | _ => Raise ValueError
    end.

(** [_PyUnicode_TransformDecimalAndSpaceToASCII]: an ASCII text is kept;
    otherwise spaces become [' '], decimal digits their ASCII digit and
    anything else ['?']. *)
Definition to_ascii_char `{Runtime} (c : Z) : Z :=
  if c <? 127 then c
  else if Py_UNICODE_ISSPACE c then 32
  else match Py_UNICODE_TODECIMAL c with
       | Some d => 48 + d
       | None => 63
       end.

Definition is_ascii (s : str) : bool := forallb (fun c => c <? 128) s.

(** [int(s, base)] on a [str]. *)
Definition int `{Runtime} (s : str) (base : Z) : result Z :=
  long_from_string base (if is_ascii s then s else map to_ascii_char s).

(** *** Values

    The values a JSON body decodes to, and the ones the handlers build.
    A [dict] keeps its items in insertion order; its keys are distinct. *)
#[local] Set Warnings "-register-all".
Inductive value : Type :=
| VNone
| VBool (b : bool)
| VInt (n : Z)
| VFloat (x : pyfloat)
| VStr (s : str)
| VList (l : list value)
| VDict (d : list (str * value)).

(** Truth value testing, as [or] performs it. *)
Definition truthy (v : value) : bool :=
  match v with
  | VNone => false
  | VBool b => b
  | VInt n => negb (n =? 0)
  | VFloat (Finite x) => negb (Qeq_bool x 0)
  | VFloat NegZero => false
  | VFloat _ => true
  | VStr s => negb (bool_decide (s = []))
  | VList l => match l with [] => false | _ => true end
  | VDict d => match d with [] => false | _ => true end
  end.

(** [a or b] *)
Definition or_ (a b : value) : value := if truthy a then a else b.

(** The item of a [dict] under a key. *)
Fixpoint dict_lookup (d : list (str * value)) (key : str) : option value :=
  match d with
  | [] => None
  | (k, v) :: d' => if bool_decide (k = key) then Some v else dict_lookup d' key
  end.

(** [d.get(key, default)] on a [dict]. *)
Definition dict_get (d : list (str * value)) (key : str) (default : value) : value :=
  match dict_lookup d key with
  | Some v => v
  | None => default
  end.

(** [obj.get(key, default)]: only a [dict] has the attribute. *)
Definition get (obj : value) (key : str) (default : value) : result value :=
  match obj with
  | VDict d => Return (dict_get d key default)
  | _ => Raise AttributeError
  end.

(** *** repr and str *)

Definition int_repr (n : Z) : str := lit (NilZero.string_of_int (Z.to_int n)).

(** [n] lower-case hexadecimal digits of [c]. *)
Fixpoint hex (n : nat) (c : Z) : str :=
  match n with
  | O => []
  | S n' => Hashlib.hex_digit ((c ≫ (4 * Z.of_nat n')) mod 16) :: hex n' c
  end.

(** One character of [repr] of a [str], inside the quote [quote]. *)
Definition repr_char `{Runtime} (quote c : Z) : str :=
  if (c =? quote) || (c =? 92) then [92; c]
  else if c =? 9 then lit "\t"
  else if c =? 10 then lit "\n"
  else if c =? 13 then lit "\r"
  else if (c <? 32) || (c =? 127) then lit "\x" ++ hex 2 c
  else if c <? 127 then [c]
  else if Py_UNICODE_ISPRINTABLE c then [c]
  else if c <=? 255 then lit "\x" ++ hex 2 c
  else if c <=? 65535 then lit "\u" ++ hex 4 c
  else lit "\U" ++ hex 8 c.

(** [repr] of a [str]: single quotes, unless the text has a single quote
    and no double quote. *)
Definition str_repr `{Runtime} (s : str) : str :=
  let quote := if bool_decide (39 ∈ s) && negb (bool_decide (34 ∈ s))
               then 34 else 39 in
  [quote] ++ concat (map (repr_char quote) s) ++ [quote].

Fixpoint repr `{Runtime} (v : value) : str :=
  match v with
  | VNone => lit "None"
  | VBool true => lit "True"
  | VBool false => lit "False"
  | VInt n => int_repr n
  | VFloat x => float_repr x
  | VStr s => str_repr s
  | VList l =>
      lit "["
      ++ (fix items (l : list value) : str :=
            match l with
            | [] => []
            | x :: l' =>
                repr x ++ match l' with [] => [] | _ => lit ", " ++ items l' end
            end) l
      ++ lit "]"
  | VDict d =>
      lit "{"
      ++ (fix items (d : list (str * value)) : str :=
            match d with
            | [] => []
            | (k, x) :: d' =>
                str_repr k ++ lit ": " ++ repr x
                ++ match d' with [] => [] | _ => lit ", " ++ items d' end
            end) d
      ++ lit "}"
  end.

(** [str(v)]: the text itself for a [str], [repr] otherwise. *)
Definition str_ `{Runtime} (v : value) : str :=
  match v with
  | VStr s => s
  | _ => repr v
  end.

Definition isinstance_str (v : value) : bool :=
  match v with VStr _ => true | _ => false end.
Definition isinstance_list (v : value) : bool :=
  match v with VList _ => true | _ => false end.

End Py.

(** ** The part of Flask the handlers use *)

Module Flask.

(** The body of a request, as the JSON provider sees it: no body at all,
    bytes that are not a JSON document, or a document and the value it
    decodes to. *)
Inductive request : Type :=
| NoBody
| NotJson (data : bytes)
| Json (v : Py.value).

(** [request.get_json(force=True, silent=True)]: the decoded value, and
    [None] where decoding fails. *)
Definition get_json (r : request) : Py.value :=
  match r with
  | Json v => v
  | NoBody | NotJson _ => Py.VNone
  end.

Inductive content : Type :=
| Text (s : str)
| JsonDocument (v : Py.value)
| InternalServerError.

Record response : Type := mkResponse { status : Z; body : content }.

(** [jsonify(v)] *)
Definition jsonify (v : Py.value) : response :=
  {| status := 200; body := JsonDocument v |}.

(** A view function run by the application: an exception that leaves
    the view becomes a 500 response. *)
Definition dispatch (view : Py.M response) : Py.heap → response * Py.heap :=
  fun h => match view h with
           | (Py.Return r, h') => (r, h')
           | (Py.Raise _, h') => ({| status := 500; body := InternalServerError |}, h')
           end.

End Flask.

(** ** server.py *)

Module Server.
Import Py Flask.
Local Open Scope py_scope.

Section server.
Context `{Runtime}.

(** [os.environ] *)
Definition environ_get (environ : gmap str str) (key default : str) : str :=
  match environ !! key with
  | Some v => v
  | None => default
  end.

(** Line 10: [EMBEDDING_DIM = int(os.environ.get("EMBEDDING_DIM", "1024"))] *)
Definition load_EMBEDDING_DIM (environ : gmap str str) : result Z :=
  int (environ_get environ (lit "EMBEDDING_DIM") (lit "1024")) 10.

(** The module global, once loaded. *)
Variable EMBEDDING_DIM : Z.

Definition generate_embedding (text : str) : M (list Q) :=
  data <- lift (encode_utf8 text) ;;
  seed <- lift (int (Hashlib.hexdigest (Hashlib.sha256 data)) 16) ;;
  rng <- Random seed ;;
  list_comp (fun _ => uniform rng (-1) 1) (range EMBEDDING_DIM).

Definition normalize_inputs (payload : value) : result (list str) :=
  result_bind (get payload (lit "inputs") (VList [])) (fun inputs =>
  match inputs with
  | VStr s => Return [s]                    (* isinstance(inputs, str) *)
  | VList items => Return (map str_ items)  (* [str(item) for item in inputs] *)
  | _ => Return []                          (* not isinstance(inputs, list) *)
  end).

Definition health : M response :=
  ret {| status := 200; body := Text (lit "ok") |}.

Definition info : M response :=
  ret (jsonify (VDict [(lit "model_id", VStr (lit "BAAI/bge-m3"))])).

(** The JSON form of a list of vectors. *)
Definition vectors (embeddings : list (list Q)) : value :=
  VList (map (fun e => VList (map (fun x => VFloat (Finite x)) e)) embeddings).

Definition embed (request : request) : M response :=
  let payload := or_ (get_json request) (VDict []) in
  inputs <- lift (normalize_inputs payload) ;;
  embeddings <- list_comp generate_embedding inputs ;;
  ret (jsonify (vectors embeddings)).

Definition sparse_stub : value :=
  VList [VDict [(lit "index", VInt 0); (lit "value", VFloat (Finite 0))]].

Definition embed_sparse (request : request) : M response :=
  let payload := or_ (get_json request) (VDict []) in
  inputs <- lift (normalize_inputs payload) ;;
  let empty_sparse := map (fun _ => sparse_stub) inputs in
  ret (jsonify (VList empty_sparse)).

(** The routes of the application. *)
Inductive endpoint : Type := Health | Info | Embed | EmbedSparse.

Definition view (e : endpoint) (r : request) : M response :=
  match e with
  | Health => health
  | Info => info
  | Embed => embed r
  | EmbedSparse => embed_sparse r
  end.

(** The application serving requests one after the other. *)
Fixpoint serve (rs : list (endpoint * request)) (h : heap) : list response :=
  match rs with
  | [] => []
  | (e, r) :: rs' => let '(resp, h') := dispatch (view e r) h in resp :: serve rs' h'
  end.

End server.

(** The process: the module is loaded (line 10), then [__main__] reads
    the port and runs the application, which is taken to bind the port and
    to handle the requests [rs] one after the other.  An exception on the
    way ends the process before it serves anything. *)
Definition main `{Runtime} (environ : gmap str str)
    (rs : list (endpoint * request)) : result (list response) :=
  result_bind (load_EMBEDDING_DIM environ) (fun dim =>
  result_bind (int (environ_get environ (lit "PORT") (lit "8091")) 10) (fun port =>
  Return (serve dim rs []))).

End Server.

(** * Auxiliary definitions

    The definitions below belong to the statements and proofs, not to the
    program. *)

Import Py Flask Server.

(** A runtime for evaluation: it knows no printable, space or digit
    character outside ASCII, prints every float as [?] and has the digit
    limit of Python 3.11. *)
Definition ascii_runtime : Runtime :=
  {| Py_UNICODE_ISPRINTABLE := fun _ => false;
     Py_UNICODE_ISSPACE := fun _ => false;
     Py_UNICODE_TODECIMAL := fun _ => None;
     float_repr := fun _ => lit "?";
     int_max_str_digits := 4300 |}.

(** The first [n] outputs of a generator. *)
Fixpoint genrand_outputs (n : nat) (g : PyRandom.RandomObject) : list Z :=
  match n with
  | O => []
  | S n' => let '(y, g') := PyRandom.genrand_uint32 g in y :: genrand_outputs n' g'
  end.

(** The 53-bit integer behind [random()]: the value is [k / 2^53]. *)
Definition random_bits (g : PyRandom.RandomObject) : Z * PyRandom.RandomObject :=
  let '(r, g') := PyRandom.random g in (Qnum (Qred (r * 9007199254740992)), g').

(** The same integer, from the two generator outputs: 27 bits of the
    first and 26 of the second. *)
Definition random_word (g : PyRandom.RandomObject) : Z :=
  let '(y1, g1) := PyRandom.genrand_uint32 g in
  let '(y2, _) := PyRandom.genrand_uint32 g1 in
  (y1 ≫ 5) * 67108864 + (y2 ≫ 6).

(** The rationals that are binary64 floats: a significand of 53 bits and
    an exponent in range.  An IEEE 754 operation whose exact result is such
    a number returns it. *)
Definition binary64 (q : Q) : Prop :=
  ∃ m e : Z, Z.abs m < 2 ^ 53 ∧ -1074 <= e <= 971 ∧ (q == inject_Z m * 2 ^ e)%Q.

Definition is_byte (b : Z) : Prop := 0 <= b < 256.

(** The characters of a hexadecimal digest. *)
Definition is_hex (c : Z) : Prop := 48 <= c <= 57 \/ 97 <= c <= 102.

(** [n] successive draws from a generator, and the generator after
    them: the run of the comprehension of [generate_embedding]. *)
Fixpoint draws (n : nat) (g : PyRandom.RandomObject) : list Q * PyRandom.RandomObject :=
  match n with
  | O => ([], g)
  | S n' =>
      let '(x, g') := PyRandom.uniform (-1) 1 g in
      let '(xs, g'') := draws n' g' in
      (x :: xs, g'')
  end.

(** What [generate_embedding] computes, written without the heap and
    without the runtime tables: the seed read from the digest of the
    encoded text, and the draws of the generator it seeds. *)
Definition seed_of (text : str) : result Z :=
  result_map (fun data => Hashlib.be_int (Hashlib.sha256 data)) (encode_utf8 text).

Definition embedding (D : Z) (text : str) : result (list Q) :=
  result_map (fun seed => fst (draws (Z.to_nat D) (PyRandom.seed seed))) (seed_of text).

(** Lines 41 and 50: [payload = request.get_json(force=True, silent=True) or {}] *)
Definition request_payload (r : request) : value := or_ (get_json r) (VDict []).

(** The bodies that normalization accepts: a body that is absent, that
    is not JSON, or that decodes to an object or to a false value ([null],
    [false], [0], the empty text, [[]]). *)
Definition lenient (req : request) : Prop :=
  match req with
  | NoBody | NotJson _ => True
  | Json v => truthy v = false ∨ ∃ d, v = VDict d
  end.

(** The outcomes of a comprehension, in order: the first exception ends it. *)
Fixpoint collect {A} (rs : list (result A)) : result (list A) :=
  match rs with
  | [] => Return []
  | r :: rs' => result_bind r (fun a => result_map (cons a) (collect rs'))
  end.

(** Whether an outcome is a value. *)
Definition returns {A} (r : result A) : bool :=
  match r with
  | Return _ => true
  | Raise _ => false
  end.

(** The components of a vector: at least [-1], below [1], and on the grid
    of step [2^-52]. *)
Definition component (x : Q) : Prop :=
  (-1 <= x < 1)%Q ∧ ∃ m : Z, (x == inject_Z m / inject_Z (2 ^ 52))%Q.

(** The response Flask builds when an exception leaves a view. *)
Definition error_500 : response := {| status := 500; body := InternalServerError |}.

(** * The model against reference values

    Published test vectors of SHA-256 and MT19937, and values returned by
    CPython 3.11 for [random], [int], [str], [bool] and [str.encode]. *)

Section reference_values.
Local Existing Instance ascii_runtime.

Example sha256_empty :
  Hashlib.hexdigest (Hashlib.sha256 []) =
  lit "e3b0c44298fc1c149afbf4c8996fb92427ae41e4649b934ca495991b7852b855".
Proof. vm_compute. reflexivity. Qed.

Example sha256_abc :
  Hashlib.hexdigest (Hashlib.sha256 (lit "abc")) =
  lit "ba7816bf8f01cfea414140de5dae2223b00361a396177a9cb410ff61f20015ad".
Proof. vm_compute. reflexivity. Qed.

Example sha256_two_blocks :
  Hashlib.hexdigest (Hashlib.sha256
    (lit "abcdbcdecdefdefgefghfghighijhijkijkljklmklmnlmnomnopnopq")) =
  lit "248d6a61d20638b8e5c026930c3e6039a33ce45964ff2167f6ecedd419db06c1".
Proof. vm_compute. reflexivity. Qed.

(** The first outputs of the reference implementation's test program
    ([mt19937ar.c], key [{0x123, 0x234, 0x345, 0x456}]). *)
Example mt19937_reference_outputs :
  genrand_outputs 5 (PyRandom.init_by_array [291; 564; 837; 1110]) =
  [1067595299; 955945823; 477289528; 4107218783; 4228976476].
Proof. vm_compute. reflexivity. Qed.

(** [random.Random(42).random()] is [0.6394267984578837], that is
    [5759444582531269 / 2^53], and the next draw [225276855802115 / 2^53]. *)
Example random_seed_42 :
  let '(k1, g) := random_bits (PyRandom.seed 42) in
  (k1, fst (random_bits g)) = (5759444582531269, 225276855802115).
Proof. vm_compute. reflexivity. Qed.

(** [random.Random(0).random()] is [0.8444218515250481]. *)
Example random_seed_0 :
  fst (random_bits (PyRandom.seed 0)) = 7605875871743422.
Proof. vm_compute. reflexivity. Qed.

(** A seed of 256 bits (eight key words) and one of 41 bits (two). *)
Example random_seed_wide :
  fst (random_bits (PyRandom.seed (2 ^ 255 + 12345))) = 5631951070929081 /\
  fst (random_bits (PyRandom.seed (2 ^ 40))) = 933501233378124.
Proof. vm_compute. split; reflexivity. Qed.

(** Across the regeneration of the state: the 624th and 625th words. *)
Example genrand_across_twist :
  let out := genrand_outputs 700 (PyRandom.seed 7) in
  (out !! 0%nat, out !! 623%nat, out !! 624%nat, out !! 699%nat) =
  (Some 1390851128, Some 960836459, Some 693491440, Some 72291700).
Proof. vm_compute. reflexivity. Qed.

(** UTF-8 at the ends of its four ranges, and around the surrogates. *)
Example encode_utf8_ranges :
  encode_utf8 [127; 128; 233; 2047] = Return [127; 194; 128; 195; 169; 223; 191]
  ∧ encode_utf8 [2048; 8364; 55295; 57344; 65535]
    = Return [224; 160; 128; 226; 130; 172; 237; 159; 191; 238; 128; 128; 239; 191; 191]
  ∧ encode_utf8 [65536; 128512; 1114111]
    = Return [240; 144; 128; 128; 240; 159; 152; 128; 244; 143; 191; 191]
  ∧ encode_utf8 [97; 55296] = Raise UnicodeEncodeError
  ∧ encode_utf8 [57343] = Raise UnicodeEncodeError.
Proof. repeat split; reflexivity. Qed.

(** [int]: spaces, sign and single underscores are accepted; a prefix only
    in base 16. *)
Example int_accepts :
  int (lit " 12 ") 10 = Return 12 ∧ int (lit "1_000") 10 = Return 1000
  ∧ int (lit "+5") 10 = Return 5 ∧ int (lit "-5") 10 = Return (-5)
  ∧ int (lit "0012") 10 = Return 12 ∧ int (lit "-0") 10 = Return 0
  ∧ int [9; 45; 55; 10] 10 = Return (-7) ∧ int [11; 51; 12] 10 = Return 3
  ∧ int (lit "0x1f") 16 = Return 31 ∧ int (lit "0X_1f") 16 = Return 31
  ∧ int (lit "ff") 16 = Return 255 ∧ int (lit " -0xff ") 16 = Return (-255)
  ∧ int (lit "f_f") 16 = Return 255 ∧ int (lit "1F") 16 = Return 31.
Proof. repeat split; reflexivity. Qed.

Example int_rejects :
  Forall (fun s => int s 10 = Raise ValueError)
    [[]; lit " "; lit "abc"; lit "_1"; lit "1__0"; lit "1_"; lit "- 5"; lit "+-1";
     lit "1.0"; lit "1e3"; lit "0x10"; [49; 50; 0]; [28; 49]; [31; 49]; [49; 127]]
  ∧ Forall (fun s => int s 16 = Raise ValueError)
      [lit "0x"; lit "0x__1"; lit "_ff"; lit "0_x1"; lit "g"].
Proof. split; repeat constructor. Qed.

(** The digit limit: 4300 digits pass, 4301 do not, zeros included. *)
Example int_digit_limit :
  returns (int (replicate 4300 49) 10) = true
  ∧ int (replicate 4301 49) 10 = Raise ValueError
  ∧ int (replicate 5000 48) 10 = Raise ValueError
  ∧ returns (int (replicate 5000 102) 16) = true.
Proof. repeat split; vm_compute; reflexivity. Qed.

(** [str] of the values of a decoded body. *)
Example str_values :
  str_ (VStr (lit "a")) = lit "a" ∧ str_ (VInt 3) = lit "3"
  ∧ str_ (VInt (-12)) = lit "-12" ∧ str_ (VInt 0) = lit "0"
  ∧ str_ (VBool true) = lit "True" ∧ str_ (VBool false) = lit "False"
  ∧ str_ VNone = lit "None"
  ∧ str_ (VDict []) = lit "{}" ∧ str_ (VList []) = lit "[]"
  ∧ str_ (VDict [(lit "a", VNone)]) = lit "{'a': None}"
  ∧ str_ (VList [VInt 1; VBool true; VNone; VStr (lit "a'b");
                  VDict [(lit "k", VList [VInt 2])]; VList []])
    = lit "[1, True, None, " ++ [34] ++ lit "a'b" ++ [34] ++ lit ", {'k': [2]}, []]".
Proof. repeat split; reflexivity. Qed.

(** [repr] of a [str]: the choice of the quote and the escapes. *)
Example str_repr_escapes :
  str_repr (lit "q" ++ [34]) = lit "'q" ++ [34] ++ lit "'"
  ∧ str_repr [97; 39; 34] = lit "'a\'" ++ [34] ++ lit "'"
  ∧ str_repr [0; 31; 32; 9; 13; 10; 92] = lit "'\x00\x1f \t\r\n\\'"
  ∧ str_repr [127; 128; 160; 173] = lit "'\x7f\x80\xa0\xad'"
  ∧ str_repr [888; 55296; 65535; 917505] = lit "'\u0378\ud800\uffff\U000e0001'".
Proof. repeat split; reflexivity. Qed.

(** Truth values: [None], [False], zero and the empty containers are
    false. *)
Example truthy_values :
  Forall (fun v => truthy v = false)
    [VNone; VBool false; VInt 0; VFloat (Finite 0); VFloat NegZero; VStr [];
     VList []; VDict []]
  ∧ Forall (fun v => truthy v = true)
      [VBool true; VInt 1; VFloat NaN; VFloat (Infinity false); VStr (lit "0");
       VList [VInt 0]; VDict [(lit "a", VInt 0)]].
Proof. split; repeat constructor. Qed.

(** The bodies of section 8 of the specification. *)
Example lenient_normalization :
  normalize_inputs (request_payload (Json (VDict [(lit "inputs", VStr (lit "hello"))])))
  = Return [lit "hello"]
  ∧ normalize_inputs (request_payload (Json (VDict []))) = Return []
  ∧ normalize_inputs (request_payload NoBody) = Return []
  ∧ normalize_inputs (request_payload (NotJson (lit "{"))) = Return []
  ∧ normalize_inputs (request_payload (Json VNone)) = Return []
  ∧ normalize_inputs (request_payload (Json (VDict [(lit "inputs", VInt 42)]))) = Return []
  ∧ fst (dispatch (embed 4 NoBody) []) = jsonify (VList []).
Proof. repeat split; reflexivity. Qed.

(** The end-to-end scenario: [POST /embed {"inputs": ["x", "y"]}] under
    [EMBEDDING_DIM=4], twice: the two answers are the same list of two
    vectors of four floats, and the two vectors differ. *)
Example embed_end_to_end :
  let request := (Embed, Json (VDict [(lit "inputs", VList [VStr (lit "x"); VStr (lit "y")])])) in
  match main (<[lit "EMBEDDING_DIM" := lit "4"]> ∅) [request; request] with
  | Return [r1; r2] =>
      r1 = r2 ∧ status r1 = 200
      ∧ match body r1 with
        | JsonDocument (VList [VList x; VList y]) =>
            length x = 4%nat ∧ length y = 4%nat ∧ x ≠ y
        | _ => False
        end
  | _ => False
  end.
Proof. vm_compute. repeat split. discriminate. Qed.

End reference_values.

(** * Properties *)

(** ** The digest and its reading as an integer *)

Section digest.

Lemma be_bytes_bytes n x : Forall is_byte (Hashlib.be_bytes n x).
Proof.
  induction n as [|n IH]; simpl; constructor; [|exact IH].
  unfold is_byte. apply Z.mod_pos_bound. lia.
Qed.

Lemma nibbles b : is_byte b → 0 <= b / 16 < 16 ∧ 0 <= b mod 16 < 16.
Proof.
  unfold is_byte. intros Hb. split.
  - split; [apply Z.div_pos | apply Z.div_lt_upper_bound]; lia.
  - apply Z.mod_pos_bound. lia.
Qed.

Lemma hexdigest_cons b bs :
  Hashlib.hexdigest (b :: bs) =
  Hashlib.hex_digit (b / 16) :: Hashlib.hex_digit (b mod 16) :: Hashlib.hexdigest bs.
Proof. reflexivity. Qed.

Lemma length_be_bytes n x : length (Hashlib.be_bytes n x) = n.
Proof. induction n as [|n IH]; simpl; [reflexivity | now rewrite IH]. Qed.

Lemma length_round v kw : length (Hashlib.round v kw) = length v.
Proof.
  unfold Hashlib.round.
  do 9 (destruct v as [|? v]; [reflexivity|]). reflexivity.
Qed.

Lemma length_rounds kws v : length (fold_left Hashlib.round kws v) = length v.
Proof.
  revert v. induction kws as [|kw kws IH]; intros v; simpl; [reflexivity|].
  now rewrite IH, length_round.
Qed.

Lemma length_compress hash block :
  length (Hashlib.compress hash block) = length hash.
Proof.
  unfold Hashlib.compress. rewrite length_zip_with, length_rounds. lia.
Qed.

Lemma length_blocks (f : nat → list Z) (idx : list nat) hash :
  length (fold_left (fun h i => Hashlib.compress h (f i)) idx hash) = length hash.
Proof.
  revert hash. induction idx as [|i idx IH]; intros hash; simpl; [reflexivity|].
  now rewrite IH, length_compress.
Qed.

(** A SHA-256 digest has 32 bytes. *)
Lemma length_sha256 data : length (Hashlib.sha256 data) = 32%nat.
Proof.
  unfold Hashlib.sha256.
  set (hash := fold_left _ _ _).
  assert (Hlen : length hash = 8%nat).
  { subst hash.
    exact (length_blocks (Hashlib.block_words (Hashlib.pad data)) _ _). }
  do 9 (destruct hash as [|? hash]; try discriminate Hlen).
  cbn [map concat]. rewrite !length_app, !length_be_bytes. reflexivity.
Qed.

Lemma sha256_bytes data : Forall is_byte (Hashlib.sha256 data).
Proof.
  unfold Hashlib.sha256. apply Forall_concat, Forall_forall.
  intros bs [w [-> _]]%list_elem_of_fmap. apply be_bytes_bytes.
Qed.

Lemma hex_digit_hex d : 0 <= d < 16 → is_hex (Hashlib.hex_digit d).
Proof. unfold is_hex, Hashlib.hex_digit. destruct (Z.ltb_spec d 10); lia. Qed.

Lemma digit_value_hex_digit d :
  0 <= d < 16 → digit_value 16 (Hashlib.hex_digit d) = Some d.
Proof.
  intros Hd. unfold digit_value, Hashlib.hex_digit.
  destruct (Z.ltb_spec d 10).
  - replace ((48 <=? 48 + d) && (48 + d <=? 57)) with true
      by (symmetry; apply andb_true_iff; split; apply Z.leb_le; lia).
    replace (48 + d - 48) with d by lia.
    destruct (Z.ltb_spec d 16); [reflexivity | lia].
  - replace ((48 <=? 87 + d) && (87 + d <=? 57)) with false
      by (symmetry; apply andb_false_iff; right; apply Z.leb_gt; lia).
    replace ((97 <=? 87 + d) && (87 + d <=? 122)) with true
      by (symmetry; apply andb_true_iff; split; apply Z.leb_le; lia).
    replace (87 + d - 87) with d by lia.
    destruct (Z.ltb_spec d 16); [reflexivity | lia].
Qed.

Lemma hex_not_underscore d : 0 <= d < 16 → (Hashlib.hex_digit d =? 95) = false.
Proof. intros Hd. apply Z.eqb_neq. destruct (hex_digit_hex d Hd); lia. Qed.

(** Reading the digits of a digest: two digits make a byte. *)
Lemma scan_digits_hexdigest bs acc n :
  Forall is_byte bs →
  scan_digits 16 false acc n (Hashlib.hexdigest bs) =
  Some (fold_left (fun a b => a * 256 + b) bs acc, (n + 2 * length bs)%nat, []).
Proof.
  intros Hbs. revert acc n.
  induction Hbs as [|b bs Hb _ IH]; intros acc n.
  - simpl. now rewrite Nat.add_0_r.
  - destruct (nibbles b Hb) as [H1 H2].
    rewrite hexdigest_cons. cbn [scan_digits].
    rewrite !hex_not_underscore, !digit_value_hex_digit by assumption.
    rewrite IH. cbn [fold_left length].
    replace ((acc * 16 + b / 16) * 16 + b mod 16) with (acc * 256 + b)
      by (pose proof (Z.div_mod b 16); lia).
    replace (n + 2 * S (length bs))%nat with (S (S n) + 2 * length bs)%nat by lia.
    reflexivity.
Qed.

Lemma hexdigest_ascii bs : Forall is_byte bs → is_ascii (Hashlib.hexdigest bs) = true.
Proof.
  induction 1 as [|b bs Hb _ IH]; [reflexivity|].
  destruct (nibbles b Hb) as [H1 H2].
  rewrite hexdigest_cons. unfold is_ascii in *. cbn [forallb]. rewrite IH.
  destruct (hex_digit_hex _ H1), (hex_digit_hex _ H2);
    rewrite !andb_true_iff; repeat split; try apply Z.ltb_lt; lia.
Qed.

(** [int(h.hexdigest(), 16)] never raises: it is the digest read as a
    big-endian integer. *)
Lemma int_hexdigest `{Runtime} bs :
  bs ≠ [] → Forall is_byte bs →
  int (Hashlib.hexdigest bs) 16 = Return (Hashlib.be_int bs).
Proof.
  intros Hne Hbs. unfold int. rewrite hexdigest_ascii by assumption.
  pose proof (scan_digits_hexdigest bs 0 0 Hbs) as Hscan.
  destruct bs as [|b bs]; [congruence|]. clear Hne.
  apply Forall_cons in Hbs as [Hb _].
  destruct (nibbles b Hb) as [H1 H2].
  revert Hscan. rewrite hexdigest_cons.
  pose proof (hex_digit_hex _ H1) as Hc1. pose proof (hex_digit_hex _ H2) as Hc2.
  set (c1 := Hashlib.hex_digit (b / 16)) in *.
  set (c2 := Hashlib.hex_digit (b mod 16)) in *.
  set (rest := Hashlib.hexdigest bs). unfold is_hex in Hc1, Hc2.
  intros Hscan. unfold long_from_string.
  assert (Hsp : skip_space (c1 :: c2 :: rest) = c1 :: c2 :: rest).
  { cbn [skip_space]. unfold Py_ISSPACE.
    destruct (Z.eqb_spec c1 32); [lia|].
    destruct (Z.leb_spec 9 c1), (Z.leb_spec c1 13); try reflexivity; lia. }
  rewrite Hsp. unfold strip_sign.
  destruct (Z.eqb_spec c1 43); [lia|]. destruct (Z.eqb_spec c1 45); [lia|].
  unfold strip_prefix.
  destruct (Z.eqb_spec c2 120); [lia|]. destruct (Z.eqb_spec c2 88); [lia|].
  rewrite andb_false_r. unfold starts_with_underscore.
  destruct (Z.eqb_spec c1 95); [lia|].
  rewrite Hscan. cbn [length Nat.add Nat.mul skip_space].
  unfold over_digit_limit. cbn [Z.eqb Pos.eqb orb negb andb].
  unfold Hashlib.be_int. f_equal. lia.
Qed.

End digest.

(** ** The generator *)

Section generator.
Import PyRandom.

Lemma u32_range x : 0 <= u32 x < 2 ^ 32.
Proof. unfold u32. apply Z.mod_pos_bound. lia. Qed.

Lemma genrand_uint32_range g : 0 <= fst (genrand_uint32 g) < 2 ^ 32.
Proof. unfold genrand_uint32, temper. cbn [fst]. apply u32_range. Qed.

Lemma random_word_range g : 0 <= random_word g < 2 ^ 53.
Proof.
  unfold random_word.
  pose proof (genrand_uint32_range g) as H1.
  destruct (genrand_uint32 g) as [y1 g1]. cbn [fst] in H1.
  pose proof (genrand_uint32_range g1) as H2.
  destruct (genrand_uint32 g1) as [y2 g2]. cbn [fst] in H2.
  rewrite !Z.shiftr_div_pow2 by lia.
  assert (0 <= y1 / 2 ^ 5 < 2 ^ 27)
    by (split; [apply Z.div_pos | apply Z.div_lt_upper_bound]; lia).
  assert (0 <= y2 / 2 ^ 6 < 2 ^ 26)
    by (split; [apply Z.div_pos | apply Z.div_lt_upper_bound]; lia).
  lia.
Qed.

Lemma random_value g :
  (fst (random g) == inject_Z (random_word g) * (1 / 9007199254740992))%Q.
Proof.
  unfold random, random_word.
  destruct (genrand_uint32 g) as [y1 g1].
  destruct (genrand_uint32 g1) as [y2 g2]. cbn [fst].
  rewrite inject_Z_plus, inject_Z_mult. reflexivity.
Qed.

(** [random()] lies in [0, 1). *)
Lemma random_range g : (0 <= fst (random g) < 1)%Q.
Proof.
  rewrite random_value.
  pose proof (random_word_range g) as [Hlo Hhi].
  rewrite Zle_Qle in Hlo. rewrite Zlt_Qlt in Hhi.
  change (inject_Z (2 ^ 53)) with 9007199254740992%Q in Hhi.
  change (inject_Z 0) with 0%Q in Hlo.
  assert (E : (inject_Z (random_word g) * (1 / 9007199254740992)
               == inject_Z (random_word g) / 9007199254740992)%Q) by field.
  rewrite E.
  split; [apply Qle_shift_div_l | apply Qlt_shift_div_r]; lra.
Qed.

(** [uniform(-1.0, 1.0)] lies in [-1, 1). *)
Lemma uniform_range g : (-1 <= fst (uniform (-1) 1 g) < 1)%Q.
Proof.
  pose proof (random_range g) as Hr. unfold uniform.
  destruct (random g) as [r g']. cbn [fst] in *. split; lra.
Qed.

(** The float [m * 2^e], given the bounds on [m] and [e]. *)
Ltac float_value m e := exists m, e; split; [lia | split; [lia |]].

(** The float expressions of [random()] and of [uniform(-1.0, 1.0)]
    are computed without rounding: the exact result of each of their
    operations is a binary64 float.  The rationals of the model are
    therefore the floats of the program. *)
Lemma uniform_exact g :
  let '(y1, g1) := genrand_uint32 g in
  let '(y2, _) := genrand_uint32 g1 in
  let a := inject_Z (y1 ≫ 5) in
  let b := inject_Z (y2 ≫ 6) in
  let r := ((a * 67108864 + b) * (1 / 9007199254740992))%Q in
  binary64 a ∧ binary64 b
  ∧ binary64 (a * 67108864) ∧ binary64 (a * 67108864 + b)
  ∧ binary64 (1 / 9007199254740992) ∧ binary64 r
  ∧ binary64 (1 - -1) ∧ binary64 ((1 - -1) * r) ∧ binary64 (-1 + (1 - -1) * r).
Proof.
  pose proof (genrand_uint32_range g) as H1.
  destruct (genrand_uint32 g) as [y1 g1]. cbn [fst] in H1.
  pose proof (genrand_uint32_range g1) as H2.
  destruct (genrand_uint32 g1) as [y2 g2]. cbn [fst] in H2.
  cbn zeta. rewrite !Z.shiftr_div_pow2 by lia.
  assert (Ha : 0 <= y1 / 2 ^ 5 < 2 ^ 27)
    by (split; [apply Z.div_pos | apply Z.div_lt_upper_bound]; lia).
  assert (Hb : 0 <= y2 / 2 ^ 6 < 2 ^ 26)
    by (split; [apply Z.div_pos | apply Z.div_lt_upper_bound]; lia).
  set (a := y1 / 2 ^ 5) in *. set (b := y2 / 2 ^ 6) in *.
  assert (Hk : 0 <= a * 67108864 + b < 2 ^ 53) by lia.
  repeat apply conj.
  - float_value a 0. change (2 ^ 0)%Q with 1%Q. ring.
  - float_value b 0. change (2 ^ 0)%Q with 1%Q. ring.
  - float_value (a * 67108864) 0.
    rewrite inject_Z_mult. change (2 ^ 0)%Q with 1%Q. ring.
  - float_value (a * 67108864 + b) 0.
    rewrite inject_Z_plus, inject_Z_mult. change (2 ^ 0)%Q with 1%Q. ring.
  - float_value 1 (-53). reflexivity.
  - float_value (a * 67108864 + b) (-53).
    rewrite inject_Z_plus, inject_Z_mult.
    change (2 ^ (-53))%Q with (1 / 9007199254740992)%Q. reflexivity.
  - float_value 2 0. reflexivity.
  - float_value (a * 67108864 + b) (-52).
    rewrite inject_Z_plus, inject_Z_mult.
    change (2 ^ (-52))%Q with (1 / 4503599627370496)%Q. field.
  - float_value (a * 67108864 + b - 2 ^ 52) (-52).
    unfold Z.sub. rewrite !inject_Z_plus, inject_Z_mult.
    change (inject_Z (- 2 ^ 52)) with (- 4503599627370496)%Q.
    change (2 ^ (-52))%Q with (1 / 4503599627370496)%Q. field.
Qed.

Lemma length_draws n g : length (fst (draws n g)) = n.
Proof.
  revert g. induction n as [|n IH]; intros g; cbn [draws]; [reflexivity|].
  destruct (uniform (-1) 1 g) as [x g'].
  specialize (IH g'). destruct (draws n g') as [xs g'']. cbn [fst] in *.
  cbn [length]. now f_equal.
Qed.

Lemma draws_range n g : Forall (fun x => (-1 <= x <= 1)%Q) (fst (draws n g)).
Proof.
  revert g. induction n as [|n IH]; intros g; cbn [draws]; [constructor|].
  pose proof (uniform_range g) as Hx.
  destruct (uniform (-1) 1 g) as [x g'].
  specialize (IH g'). destruct (draws n g') as [xs g'']. cbn [fst] in *.
  constructor; [|exact IH]. split; lra.
Qed.

(** Fewer draws give a prefix. *)
Lemma draws_take n m g :
  (n <= m)%nat → fst (draws n g) = take n (fst (draws m g)).
Proof.
  revert m g. induction n as [|n IH]; intros m g Hnm; [reflexivity|].
  destruct m as [|m]; [lia|]. cbn [draws].
  destruct (uniform (-1) 1 g) as [x g'].
  specialize (IH m g' ltac:(lia)).
  destruct (draws n g') as [xs g1], (draws m g') as [ys g2].
  cbn [fst firstn] in *. now rewrite IH.
Qed.

(** The comprehension over a generator object of the heap. *)
Lemma list_comp_uniform (l : list Z) (h : heap) g :
  list_comp (fun _ => Py.uniform (length h) (-1) 1) l (h ++ [g]) =
  (Return (fst (draws (length l) g)), h ++ [snd (draws (length l) g)]).
Proof.
  revert g. induction l as [|i l IH]; intros g; [reflexivity|].
  cbn [list_comp length draws]. unfold bind at 1. unfold Py.uniform at 1.
  rewrite list_lookup_middle by reflexivity.
  destruct (uniform (-1) 1 g) as [x g'].
  rewrite insert_app_r_alt by lia. rewrite Nat.sub_diag. cbn [insert list_insert].
  unfold bind at 1. rewrite (IH g').
  destruct (draws (length l) g') as [xs g'']. reflexivity.
Qed.

Lemma length_range n : length (range n) = Z.to_nat n.
Proof. unfold range. now rewrite length_map, length_seq. Qed.

End generator.

(** ** The embedding of a text *)

Section embedding.

Lemma utf8_char_scalar c :
  is_scalar_value c = true → ∃ bs, utf8_char c = Some bs.
Proof.
  unfold is_scalar_value, utf8_char. intros Hc.
  destruct (Z.leb_spec 0 c), (Z.ltb_spec c 55296), (Z.ltb_spec 57343 c),
    (Z.leb_spec c 1114111); try discriminate Hc;
  destruct (Z.ltb_spec c 0); try lia;
  destruct (Z.ltb_spec c 128); eauto;
  destruct (Z.ltb_spec c 2048); eauto;
  destruct (Z.leb_spec 55296 c), (Z.leb_spec c 57343); cbn [andb]; try lia;
  destruct (Z.ltb_spec c 65536); eauto.
Qed.

Lemma utf8_char_not_scalar c : is_scalar_value c = false → utf8_char c = None.
Proof.
  unfold is_scalar_value, utf8_char. intros Hc.
  destruct (Z.leb_spec 0 c), (Z.ltb_spec c 55296), (Z.ltb_spec 57343 c),
    (Z.leb_spec c 1114111); try discriminate Hc;
  destruct (Z.ltb_spec c 0); try reflexivity; try lia;
  destruct (Z.ltb_spec c 128); try lia;
  destruct (Z.ltb_spec c 2048); try lia;
  destruct (Z.leb_spec 55296 c), (Z.leb_spec c 57343); cbn [andb];
    try reflexivity; try lia;
  destruct (Z.ltb_spec c 65536); try lia; reflexivity.
Qed.

(** [encode] succeeds on the texts without surrogates, and on them
    only. *)
Lemma encode_utf8_encodable s :
  encodable s = true → ∃ data, encode_utf8 s = Return data.
Proof.
  unfold encodable. induction s as [|c s IH]; cbn [forallb encode_utf8].
  - eauto.
  - intros [Hc Hs]%andb_true_iff.
    destruct (utf8_char_scalar c Hc) as [bs ->].
    destruct (IH Hs) as [data ->]. cbn. eauto.
Qed.

Lemma encode_utf8_not_encodable s :
  encodable s = false → encode_utf8 s = Raise UnicodeEncodeError.
Proof.
  unfold encodable. induction s as [|c s IH]; cbn [forallb encode_utf8].
  - discriminate.
  - destruct (is_scalar_value c) eqn:Hc; cbn [andb].
    + intros Hs. destruct (utf8_char_scalar c Hc) as [bs ->].
      rewrite (IH Hs). reflexivity.
    + intros _. now rewrite utf8_char_not_scalar.
Qed.

Lemma embedding_encodable D s :
  encodable s = true → ∃ v, embedding D s = Return v ∧ length v = Z.to_nat D.
Proof.
  intros [data Hdata]%encode_utf8_encodable.
  unfold embedding, seed_of. rewrite Hdata. cbn. eexists. split; [reflexivity|].
  apply length_draws.
Qed.

Lemma embedding_not_encodable D s :
  encodable s = false → embedding D s = Raise UnicodeEncodeError.
Proof.
  intros Hs. unfold embedding, seed_of. now rewrite encode_utf8_not_encodable.
Qed.

(** A call of [generate_embedding], in any heap and with any runtime
    tables: it raises and leaves the heap as it is when the text cannot
    be encoded; otherwise it returns the draws of the generator seeded by
    the digest and leaves that generator as a new object of the heap. *)
Lemma generate_embedding_run `{Runtime} D text (h : heap) :
  generate_embedding D text h =
  match seed_of text with
  | Return seed =>
      let '(v, g) := draws (Z.to_nat D) (PyRandom.seed seed) in (Return v, h ++ [g])
  | Raise e => (Raise e, h)
  end.
Proof.
  unfold generate_embedding, seed_of, bind, lift.
  destruct (encode_utf8 text) as [data|e]; [|reflexivity]. cbn [result_map result_bind].
  rewrite int_hexdigest.
  - unfold Random. rewrite list_comp_uniform, length_range.
    now destruct (draws _ _).
  - intros Hnil. pose proof (length_sha256 data) as Hlen.
    rewrite Hnil in Hlen. discriminate Hlen.
  - apply sha256_bytes.
Qed.

Lemma generate_embedding_outcome `{Runtime} D text (h : heap) :
  fst (generate_embedding D text h) = embedding D text.
Proof.
  rewrite generate_embedding_run. unfold embedding.
  destruct (seed_of text) as [seed|e]; [|reflexivity].
  cbn. now destruct (draws _ _).
Qed.

End embedding.

(** ** Claims about [generate_embedding] *)

(** C1. Determinism: two invocations of [generate_embedding] on the same
    text under the same dimension have the same outcome (the same vector,
    or the same exception), whatever the state of the two interpreters
    (their heaps, hence what ran before) and their Unicode tables: the
    outcome is a function of the text and of the dimension only.  A call
    changes no object that was in the heap, it only adds its own
    generator; so a second call in the same run repeats the first. *)
Theorem generate_embedding_deterministic
    (R1 R2 : Runtime) (D : Z) (text : str) (h1 h2 : heap) :
  fst (@generate_embedding R1 D text h1) = fst (@generate_embedding R2 D text h2)
  ∧ (∃ fresh, snd (@generate_embedding R1 D text h1) = h1 ++ fresh)
  ∧ fst (@generate_embedding R1 D text (snd (@generate_embedding R1 D text h1)))
    = fst (@generate_embedding R1 D text h1).
Proof.
  split; [|split].
  - now rewrite !generate_embedding_outcome.
  - rewrite generate_embedding_run.
    destruct (seed_of text) as [seed|e].
    + destruct (draws _ _) as [v g]. now exists [g].
    + exists []. cbn [snd]. now rewrite app_nil_r.
  - now rewrite !generate_embedding_outcome.
Qed.

(** C3, as the code has it. Dimension: for every text without surrogate
    code points (the empty text included) and every dimension [D >= 0],
    [generate_embedding] returns a vector of exactly [D] components, the
    empty vector when [D = 0]. *)
Theorem generate_embedding_dimension `{Runtime} (D : Z) (text : str) (h : heap) :
  0 <= D → encodable text = true →
  ∃ v, fst (generate_embedding D text h) = Return v
       ∧ Z.of_nat (length v) = D
       ∧ (D = 0 → v = []).
Proof.
  intros HD Htext. rewrite generate_embedding_outcome.
  destruct (embedding_encodable D text Htext) as (v & -> & Hlen).
  exists v. split; [reflexivity|]. split; [lia|].
  intros ->. destruct v; [reflexivity | discriminate Hlen].
Qed.

(** C4. Range: whatever the text and the dimension, every component of a
    vector that [generate_embedding] returns lies in [-1, 1]; and it
    returns one unless the text has a code point that UTF-8 cannot
    encode. *)
Theorem generate_embedding_range `{Runtime} (D : Z) (text : str) (h : heap) :
  match fst (generate_embedding D text h) with
  | Return v => Forall (fun x => (-1 <= x <= 1)%Q) v
  | Raise _ => encodable text = false
  end.
Proof.
  rewrite generate_embedding_outcome. unfold embedding, seed_of.
  destruct (encodable text) eqn:Htext.
  - destruct (encode_utf8_encodable text Htext) as [data ->]. cbn.
    apply draws_range.
  - now rewrite encode_utf8_not_encodable.
Qed.

(** C9. Prefix coherence: for dimensions [D1 <= D2], the outcome of
    [generate_embedding] under [D1] is the outcome under [D2] cut to its
    first [D1] components. *)
Theorem generate_embedding_prefix
    `{Runtime} (D1 D2 : Z) (text : str) (h1 h2 : heap) :
  D1 <= D2 →
  fst (generate_embedding D1 text h1) =
  result_map (take (Z.to_nat D1)) (fst (generate_embedding D2 text h2)).
Proof.
  intros HD. rewrite !generate_embedding_outcome. unfold embedding.
  destruct (seed_of text) as [seed|e]; [|reflexivity]. cbn.
  f_equal. apply draws_take. lia.
Qed.

(** ** The handlers *)

Section handlers.
Context `{Runtime}.

Lemma list_comp_outcome {A B} (f : A → M B) (g : A → result B) l h :
  (∀ x h, fst (f x h) = g x) → fst (list_comp f l h) = collect (map g l).
Proof.
  intros Hf. revert h. induction l as [|x l IH]; intros h; [reflexivity|].
  cbn [list_comp map collect]. unfold bind at 1.
  specialize (Hf x h). destruct (f x h) as [[b|e] h']; cbn [fst] in Hf; rewrite <- Hf;
    [|reflexivity].
  unfold bind at 1. specialize (IH h').
  destruct (list_comp f l h') as [[bs|e] h'']; cbn [fst] in IH; rewrite <- IH;
    reflexivity.
Qed.

Lemma collect_embeddings D inputs :
  Forall (fun text => encodable text = true) inputs →
  ∃ embeddings, collect (map (embedding D) inputs) = Return embeddings
                ∧ Forall2 (fun text e => embedding D text = Return e
                                         ∧ length e = Z.to_nat D) inputs embeddings.
Proof.
  induction 1 as [|text inputs Htext _ (es & Hes & IH)].
  - exists []. split; [reflexivity | constructor].
  - destruct (embedding_encodable D text Htext) as (e & He & Hlen).
    exists (e :: es). cbn [map collect]. rewrite He, Hes. split; [reflexivity|].
    constructor; [split|]; assumption.
Qed.

Lemma embed_run D req h :
  fst (embed D req h) =
  result_bind (normalize_inputs (request_payload req)) (fun inputs =>
  result_map (fun es => jsonify (vectors es)) (collect (map (embedding D) inputs))).
Proof.
  unfold embed, bind at 1, lift. fold (request_payload req).
  destruct (normalize_inputs (request_payload req)) as [inputs|e]; [|reflexivity].
  cbn [result_bind]. unfold bind at 1.
  rewrite <- (list_comp_outcome (generate_embedding D) (embedding D) inputs h)
    by (intros; apply generate_embedding_outcome).
  destruct (list_comp (generate_embedding D) inputs h) as [[es|e] h']; reflexivity.
Qed.

Lemma embed_sparse_run req h :
  fst (embed_sparse req h) =
  result_map (fun inputs => jsonify (VList (map (fun _ => sparse_stub) inputs)))
             (normalize_inputs (request_payload req)).
Proof.
  unfold embed_sparse, bind, lift. fold (request_payload req).
  destruct (normalize_inputs (request_payload req)); reflexivity.
Qed.

Lemma dispatch_outcome (view : M response) h :
  fst (dispatch view h) =
  match fst (view h) with
  | Return r => r
  | Raise _ => error_500
  end.
Proof. unfold dispatch. destruct (view h) as [[r|e] h']; reflexivity. Qed.

(** Normalization succeeds on every payload that is a [dict]: the
    shapes of the field are all accepted. *)
Lemma normalize_inputs_dict d : ∃ inputs, normalize_inputs (VDict d) = Return inputs.
Proof.
  unfold normalize_inputs. cbn [get result_bind].
  destruct (dict_get d (lit "inputs") (VList [])); eauto.
Qed.

Lemma lenient_payload req : lenient req → ∃ d, request_payload req = VDict d.
Proof.
  unfold lenient, request_payload, or_.
  destruct req as [|data|v]; cbn [get_json truthy]; [eauto | eauto |].
  intros [-> | [d ->]]; [eauto|].
  destruct (truthy (VDict d)); eauto.
Qed.

(** On such a body normalization returns a list, [/embed_sparse] answers
    200, and so does [/embed] when the texts can be encoded. *)
Lemma lenient_answered D req h :
  lenient req →
  ∃ inputs,
    normalize_inputs (request_payload req) = Return inputs
    ∧ status (fst (dispatch (embed_sparse req) h)) = 200
    ∧ (Forall (fun text => encodable text = true) inputs →
       status (fst (dispatch (embed D req) h)) = 200).
Proof.
  intros [d Hd]%lenient_payload.
  destruct (normalize_inputs_dict d) as [inputs Hnorm]. rewrite <- Hd in Hnorm.
  exists inputs. split; [exact Hnorm|].
  rewrite !dispatch_outcome, embed_run, embed_sparse_run, Hnorm.
  split; [reflexivity|]. intros Henc.
  destruct (collect_embeddings D inputs Henc) as (es & Hes & _).
  cbn [result_bind]. now rewrite Hes.
Qed.

(** Every other body, that is a JSON value that is true and is not an
    object, is a payload without [get]. *)
Lemma not_lenient_raises req :
  ¬ lenient req → normalize_inputs (request_payload req) = Raise AttributeError.
Proof.
  unfold lenient, request_payload, or_.
  destruct req as [|data|v]; cbn [get_json]; [tauto | tauto |].
  intros Hv. destruct (truthy v) eqn:Htruthy; [|tauto].
  destruct v; try reflexivity. exfalso. eauto.
Qed.


(** [int] raises nothing but [ValueError]. *)
Lemma int_raises s base e : int s base = Raise e → e = ValueError.
Proof.
  unfold int, long_from_string.
  destruct (strip_sign _) as [sign s'].
  destruct (starts_with_underscore _); [congruence|].
  destruct (scan_digits _ _ _ _ _) as [[[v [|n]] rest]|]; try congruence.
  destruct (over_digit_limit _ _); [congruence|].
  destruct (skip_space rest); congruence.
Qed.

End handlers.

(** Running a handler: the rewrite rules that replace a run in a heap by
    its outcome. *)
Create Rewrite HintDb run.
#[export] Hint Rewrite @generate_embedding_outcome @dispatch_outcome @embed_run
  @embed_sparse_run : run.

(** ** Claims about normalization and the endpoints *)

(** C5. Shape rules of [normalize_inputs] on a decoded object: a single
    text [v] under [inputs] gives [[v]]; a sequence gives the [str] of its
    elements, in order, none rejected; an absent field and any other shape
    give the empty list.  The body [{"inputs": ["a", "b", 3]}] gives
    [["a", "b", "3"]]. *)
Theorem normalize_inputs_shapes `{Runtime} (d : list (str * value)) :
  let field := dict_lookup d (lit "inputs") in
  (∀ v, field = Some (VStr v) → normalize_inputs (VDict d) = Return [v])
  ∧ (∀ items, field = Some (VList items) →
       normalize_inputs (VDict d) = Return (map str_ items))
  ∧ (field = None → normalize_inputs (VDict d) = Return [])
  ∧ (∀ v, field = Some v → isinstance_str v = false → isinstance_list v = false →
       normalize_inputs (VDict d) = Return [])
  ∧ normalize_inputs
      (VDict [(lit "inputs", VList [VStr (lit "a"); VStr (lit "b"); VInt 3])])
    = Return [lit "a"; lit "b"; lit "3"].
Proof.
  cbn zeta. unfold normalize_inputs, get, dict_get. cbn [result_bind].
  repeat split.
  - intros v ->. reflexivity.
  - intros items ->. reflexivity.
  - intros ->. reflexivity.
  - intros v -> Hstr Hlist. destruct v; try reflexivity; discriminate.
Qed.

(** C2 fails on the code: a body that decodes to a non-empty array (or to
    a non-empty text, a non-zero number or [true]) is a payload without
    [get]; normalization raises [AttributeError] and both endpoints answer
    500. *)
Theorem normalize_inputs_array_body_raises `{Runtime} (D : Z) (h : heap) :
  let req := Json (VList [VInt 1]) in
  normalize_inputs (request_payload req) = Raise AttributeError
  ∧ fst (dispatch (embed D req) h) = error_500
  ∧ fst (dispatch (embed_sparse req) h)
    = error_500.
Proof.
  cbn zeta. split; [reflexivity|].
  autorewrite with run. split; reflexivity.
Qed.

(** C6. Fail-fast: when the value of [EMBEDDING_DIM] in the environment
    is not an integer literal, [int] raises [ValueError] while the module
    is loaded and the process ends there: it serves no request, whatever
    requests are sent. *)
Theorem misconfigured_dimension_fails_at_startup
    `{Runtime} (environ : gmap str str) (v : str) (e : exn)
    (rs : list (endpoint * request)) :
  environ !! lit "EMBEDDING_DIM" = Some v →
  int v 10 = Raise e →
  e = ValueError
  ∧ load_EMBEDDING_DIM environ = Raise ValueError
  ∧ main environ rs = Raise ValueError.
Proof.
  intros Hv Hint. pose proof (int_raises _ _ _ Hint) as ->.
  assert (Hload : load_EMBEDDING_DIM environ = Raise ValueError).
  { unfold load_EMBEDDING_DIM, environ_get. now rewrite Hv. }
  split; [reflexivity|]. split; [exact Hload|].
  unfold main. now rewrite Hload.
Qed.

(** C7, as the code has it. Length and order: when normalization yields
    the list [inputs], [/embed_sparse] answers a list of the same length;
    and when moreover every text of [inputs] can be encoded, [/embed]
    answers a list of the same length whose [i]-th element is the vector
    that [generate_embedding] returns for the [i]-th text. *)
Theorem responses_follow_inputs
    `{Runtime} (D : Z) (req : request) (h : heap) (inputs : list str) :
  normalize_inputs (request_payload req) = Return inputs →
  (∃ stubs, fst (dispatch (embed_sparse req) h) = jsonify (VList stubs)
            ∧ length stubs = length inputs)
  ∧ (Forall (fun text => encodable text = true) inputs →
     ∃ embeddings,
       fst (dispatch (embed D req) h) = jsonify (vectors embeddings)
       ∧ length embeddings = length inputs
       ∧ Forall2 (fun text e => ∀ h', fst (generate_embedding D text h') = Return e)
                 inputs embeddings).
Proof.
  intros Hnorm. split.
  - autorewrite with run. rewrite Hnorm. cbn.
    eexists. split; [reflexivity|]. apply length_map.
  - intros Henc. destruct (collect_embeddings D inputs Henc) as (es & Hes & Hall).
    exists es. autorewrite with run. rewrite Hnorm. cbn [result_bind].
    rewrite Hes. split; [reflexivity|]. split.
    + symmetry. eapply Forall2_length, Hall.
    + eapply Forall2_impl; [exact Hall|]. intros text e [He _] h'.
      now autorewrite with run.
Qed.

(** C8. Sparse stub: when normalization yields the list [inputs],
    [/embed_sparse] answers, for each text of [inputs] and whatever the
    text is, the one-entry list [[{"index": 0, "value": 0.0}]]; the inputs
    [["x", "y"]] give two of them. *)
Theorem embed_sparse_stub_content
    `{Runtime} (req : request) (h : heap) (inputs : list str) :
  normalize_inputs (request_payload req) = Return inputs →
  fst (dispatch (embed_sparse req) h)
  = {| status := 200;
       body := JsonDocument (VList (map (fun _ =>
                 VList [VDict [(lit "index", VInt 0); (lit "value", VFloat (Finite 0))]])
                 inputs)) |}
  ∧ fst (dispatch (embed_sparse
           (Json (VDict [(lit "inputs", VList [VStr (lit "x"); VStr (lit "y")])]))) h)
    = {| status := 200;
         body := JsonDocument (VList
           [VList [VDict [(lit "index", VInt 0); (lit "value", VFloat (Finite 0))]];
            VList [VDict [(lit "index", VInt 0); (lit "value", VFloat (Finite 0))]]]) |}.
Proof.
  intros Hnorm. autorewrite with run. rewrite Hnorm.
  split; reflexivity.
Qed.

(** C10, as the code has it. A negative dimension is accepted: when the
    value of [EMBEDDING_DIM] reads as a negative integer, loading the
    module succeeds (and so does the process, given a port that reads as
    an integer); [generate_embedding] returns the empty vector for every
    text that can be encoded, and [/embed] answers one empty list per
    normalized text when all of them can. *)
Theorem negative_dimension_accepted
    `{Runtime} (environ : gmap str str) (v : str) (D : Z) :
  environ !! lit "EMBEDDING_DIM" = Some v →
  int v 10 = Return D →
  D < 0 →
  load_EMBEDDING_DIM environ = Return D
  ∧ (∀ port rs, int (environ_get environ (lit "PORT") (lit "8091")) 10 = Return port →
       main environ rs = Return (serve D rs []))
  ∧ (∀ text h, encodable text = true → fst (generate_embedding D text h) = Return [])
  ∧ (∀ req h inputs,
       normalize_inputs (request_payload req) = Return inputs →
       Forall (fun text => encodable text = true) inputs →
       fst (dispatch (embed D req) h) = jsonify (VList (map (fun _ => VList []) inputs))).
Proof.
  intros Hv Hint HD.
  assert (Hload : load_EMBEDDING_DIM environ = Return D).
  { unfold load_EMBEDDING_DIM, environ_get. now rewrite Hv. }
  assert (Hempty : ∀ text, encodable text = true → embedding D text = Return []).
  { intros text Htext. destruct (embedding_encodable D text Htext) as (e & -> & Hlen).
    destruct e; [reflexivity|]. cbn [length] in Hlen. lia. }
  split; [exact Hload|]. split; [|split].
  - intros port rs Hport. unfold main. rewrite Hload. cbn [result_bind].
    now rewrite Hport.
  - intros text h Htext. autorewrite with run. now apply Hempty.
  - intros req h inputs Hnorm Henc.
    autorewrite with run. rewrite Hnorm. cbn [result_bind].
    assert (Hes : collect (map (embedding D) inputs) = Return (map (fun _ => []) inputs)).
    { clear Hnorm. induction Henc as [|text inputs' Htext _ IH]; [reflexivity|].
      cbn [map collect]. rewrite (Hempty text Htext), IH. reflexivity. }
    rewrite Hes. cbn [result_map result_bind]. unfold vectors.
    rewrite map_map. reflexivity.
Qed.

(** ** The claims at concrete inputs *)

(** C3 as stated fails: a text with a lone surrogate (the JSON body
    [{"inputs": "\ud800"}] decodes to one) is a [str] for which
    [generate_embedding] raises instead of returning [D] floats. *)
Lemma generate_embedding_surrogate_raises :
  fst (@generate_embedding ascii_runtime 4 [55296] []) = Raise UnicodeEncodeError
  ∧ ¬ (∃ v, fst (@generate_embedding ascii_runtime 4 [55296] []) = Return v
            ∧ Z.of_nat (length v) = 4).
Proof.
  split; [reflexivity|]. intros (v & Hv & _). discriminate Hv.
Qed.

(** The dimension at the empty text, under [D = 3]. *)
Lemma generate_embedding_dimension_witness :
  0 <= 3 ∧ encodable [] = true
  ∧ ∃ v, fst (@generate_embedding ascii_runtime 3 [] []) = Return v
         ∧ Z.of_nat (length v) = 3
         ∧ (3 = 0 → v = []).
Proof.
  split; [lia|]. split; [reflexivity|].
  apply (@generate_embedding_dimension ascii_runtime 3 [] []); [lia | reflexivity].
Defined.

(** Two of five components of the vector of ["x"]. *)
Lemma generate_embedding_prefix_witness :
  2 <= 5
  ∧ fst (@generate_embedding ascii_runtime 2 (lit "x") []) =
    result_map (take (Z.to_nat 2)) (fst (@generate_embedding ascii_runtime 5 (lit "x") [])).
Proof.
  split; [lia|].
  apply (@generate_embedding_prefix ascii_runtime 2 5 (lit "x") [] []). lia.
Defined.

(** The sequence rule at [{"inputs": ["a", "b", 3]}]. *)
Lemma normalize_inputs_shapes_witness :
  let d := [(lit "inputs", VList [VStr (lit "a"); VStr (lit "b"); VInt 3])] in
  dict_lookup d (lit "inputs") = Some (VList [VStr (lit "a"); VStr (lit "b"); VInt 3])
  ∧ @normalize_inputs ascii_runtime (VDict d)
    = Return (map (@str_ ascii_runtime) [VStr (lit "a"); VStr (lit "b"); VInt 3]).
Proof.
  cbn zeta. split; [reflexivity|].
  apply (proj1 (proj2 (@normalize_inputs_shapes ascii_runtime
           [(lit "inputs", VList [VStr (lit "a"); VStr (lit "b"); VInt 3])]))).
  reflexivity.
Defined.

(** [EMBEDDING_DIM=abc]: the process ends before the request it is sent. *)
Lemma misconfigured_dimension_witness :
  let environ : gmap str str := <[lit "EMBEDDING_DIM" := lit "abc"]> ∅ in
  let rs := [(Embed, Json (VDict [(lit "inputs", VStr (lit "x"))]))] in
  environ !! lit "EMBEDDING_DIM" = Some (lit "abc")
  ∧ @int ascii_runtime (lit "abc") 10 = Raise ValueError
  ∧ ValueError = ValueError
  ∧ @load_EMBEDDING_DIM ascii_runtime environ = Raise ValueError
  ∧ @main ascii_runtime environ rs = Raise ValueError.
Proof.
  cbn zeta. split; [vm_compute; reflexivity|]. split; [reflexivity|].
  apply (@misconfigured_dimension_fails_at_startup ascii_runtime
           (<[lit "EMBEDDING_DIM" := lit "abc"]> ∅) (lit "abc") ValueError
           [(Embed, Json (VDict [(lit "inputs", VStr (lit "x"))]))]);
    [vm_compute; reflexivity | reflexivity].
Defined.

(** C7 as stated fails: for the body [{"inputs": "\ud800"}] the
    normalized list has one text, and [/embed] answers 500 with no list. *)
Lemma embed_surrogate_input_fails :
  let req := Json (VDict [(lit "inputs", VStr [55296])]) in
  @normalize_inputs ascii_runtime (request_payload req) = Return [[55296]]
  ∧ fst (dispatch (@embed ascii_runtime 4 req) [])
    = error_500
  ∧ ¬ (∃ l, body (fst (dispatch (@embed ascii_runtime 4 req) [])) = JsonDocument (VList l)
            ∧ length l = length [[55296]]).
Proof.
  cbn zeta. split; [reflexivity|]. split; [reflexivity|].
  intros (l & Hl & _). discriminate Hl.
Qed.

(** Both endpoints at [{"inputs": ["x", "y"]}], under [D = 4]. *)
Lemma responses_follow_inputs_witness :
  let req := Json (VDict [(lit "inputs", VList [VStr (lit "x"); VStr (lit "y")])]) in
  let inputs := [lit "x"; lit "y"] in
  @normalize_inputs ascii_runtime (request_payload req) = Return inputs
  ∧ (∃ stubs, fst (dispatch (@embed_sparse ascii_runtime req) []) = jsonify (VList stubs)
              ∧ length stubs = length inputs)
  ∧ (Forall (fun text => encodable text = true) inputs →
     ∃ embeddings,
       fst (dispatch (@embed ascii_runtime 4 req) []) = jsonify (vectors embeddings)
       ∧ length embeddings = length inputs
       ∧ Forall2 (fun text e => ∀ h', fst (@generate_embedding ascii_runtime 4 text h')
                                      = Return e)
                 inputs embeddings).
Proof.
  cbn zeta. split; [reflexivity|].
  apply (@responses_follow_inputs ascii_runtime 4
           (Json (VDict [(lit "inputs", VList [VStr (lit "x"); VStr (lit "y")])])) []
           [lit "x"; lit "y"]).
  reflexivity.
Defined.

(** [/embed_sparse] at [{"inputs": "hello"}]. *)
Lemma embed_sparse_stub_witness :
  let req := Json (VDict [(lit "inputs", VStr (lit "hello"))]) in
  @normalize_inputs ascii_runtime (request_payload req) = Return [lit "hello"]
  ∧ fst (dispatch (@embed_sparse ascii_runtime req) [])
    = {| status := 200;
         body := JsonDocument (VList
           [VList [VDict [(lit "index", VInt 0); (lit "value", VFloat (Finite 0))]]]) |}.
Proof.
  cbn zeta. split; [reflexivity|].
  apply (proj1 (@embed_sparse_stub_content ascii_runtime
                  (Json (VDict [(lit "inputs", VStr (lit "hello"))])) []
                  [lit "hello"] eq_refl)).
Defined.

(** C10 as stated fails: under a negative dimension too, a text with a
    lone surrogate makes [generate_embedding] raise; it does not return
    the empty vector. *)
Lemma negative_dimension_surrogate_raises :
  @load_EMBEDDING_DIM ascii_runtime (<[lit "EMBEDDING_DIM" := lit "-1"]> ∅) = Return (-1)
  ∧ fst (@generate_embedding ascii_runtime (-1) [55296] []) = Raise UnicodeEncodeError
  ∧ fst (@generate_embedding ascii_runtime (-1) [55296] []) ≠ Return [].
Proof.
  split; [vm_compute; reflexivity|]. split; [reflexivity | discriminate].
Qed.

(** [EMBEDDING_DIM=-5]. *)
Lemma negative_dimension_witness :
  let environ : gmap str str := <[lit "EMBEDDING_DIM" := lit "-5"]> ∅ in
  environ !! lit "EMBEDDING_DIM" = Some (lit "-5")
  ∧ @int ascii_runtime (lit "-5") 10 = Return (-5)
  ∧ -5 < 0
  ∧ @load_EMBEDDING_DIM ascii_runtime environ = Return (-5)
  ∧ fst (@generate_embedding ascii_runtime (-5) (lit "x") []) = Return []
  ∧ fst (dispatch (@embed ascii_runtime (-5)
           (Json (VDict [(lit "inputs", VList [VStr (lit "x"); VStr (lit "y")])]))) [])
    = jsonify (VList [VList []; VList []]).
Proof.
  cbn zeta.
  assert (Hv : (<[lit "EMBEDDING_DIM" := lit "-5"]> ∅ : gmap str str)
                 !! lit "EMBEDDING_DIM" = Some (lit "-5")) by (vm_compute; reflexivity).
  pose proof (@negative_dimension_accepted ascii_runtime
                (<[lit "EMBEDDING_DIM" := lit "-5"]> ∅) (lit "-5") (-5)
                Hv eq_refl ltac:(lia))
    as (Hload & _ & Hgen & Hembed).
  split; [exact Hv|]. split; [reflexivity|]. split; [lia|].
  split; [exact Hload|]. split.
  - apply Hgen. reflexivity.
  - apply (Hembed _ [] [lit "x"; lit "y"]); [reflexivity|].
    repeat constructor.
Defined.

(** * Further properties of the server *)

(** ** The application is stateless *)

Section stateless.
Context `{Runtime}.

(** The answer of a view does not depend on the heap it runs in, and the
    run keeps the objects of that heap. *)
Lemma view_outcome D e r (h : heap) :
  fst (dispatch (view D e r) h) = fst (dispatch (view D e r) []).
Proof.
  destruct e; cbn [view]; [reflexivity | reflexivity | |];
    now autorewrite with run.
Qed.

Lemma collect_returns D inputs :
  returns (collect (map (embedding D) inputs)) = forallb encodable inputs.
Proof.
  induction inputs as [|text inputs IH]; [reflexivity|].
  cbn [map collect forallb]. destruct (encodable text) eqn:Htext.
  - destruct (embedding_encodable D text Htext) as (v & -> & _).
    cbn [result_bind andb]. rewrite <- IH.
    now destruct (collect (map (embedding D) inputs)).
  - now rewrite embedding_not_encodable.
Qed.

End stateless.

(** X1. Statelessness: the answers to a sequence of requests are the
    answers each request gets on its own in a new process: no request
    sees what the requests before it did.  Serving two sequences one after
    the other gives the answers of the first, then those of the second. *)
Theorem serve_stateless `{Runtime} (D : Z) (rs rs' : list (endpoint * request))
    (h : heap) :
  serve D rs h = map (fun er => fst (dispatch (view D er.1 er.2) [])) rs
  ∧ serve D (rs ++ rs') h = serve D rs h ++ serve D rs' h.
Proof.
  assert (Hserve : ∀ qs h0,
    serve D qs h0 = map (fun er => fst (dispatch (view D er.1 er.2) [])) qs).
  { induction qs as [|[e r] qs IH]; intros h0; [reflexivity|].
    cbn [serve map fst snd]. pose proof (view_outcome D e r h0) as Hout.
    destruct (dispatch (view D e r) h0) as [resp h1]. cbn [fst] in Hout.
    now rewrite Hout, IH. }
  split; [apply Hserve|]. now rewrite !Hserve, map_app.
Qed.

(** ** The answers of the two embedding endpoints *)

Section answers.
Context `{Runtime}.

Lemma forallb_encodable inputs :
  forallb encodable inputs = true ↔ Forall (fun text => encodable text = true) inputs.
Proof.
  induction inputs as [|text inputs IH]; cbn [forallb].
  - split; [constructor | reflexivity].
  - rewrite andb_true_iff, IH. split.
    + intros [Ht Hl]. now constructor.
    + intros Hall. inversion Hall; subst. now split.
Qed.

(** A draw of the server is [m / 2^52] for an integer [m]. *)
Lemma uniform_value g :
  (fst (PyRandom.uniform (-1) 1 g)
   == inject_Z (random_word g - 2 ^ 52) / inject_Z (2 ^ 52))%Q.
Proof.
  pose proof (random_value g) as Hv. unfold PyRandom.uniform.
  destruct (PyRandom.random g) as [r g']. cbn [fst] in *. rewrite Hv.
  unfold Z.sub. rewrite inject_Z_plus.
  change (inject_Z (- 2 ^ 52)) with (- 4503599627370496)%Q.
  change (inject_Z (2 ^ 52)) with 4503599627370496%Q.
  field.
Qed.

Lemma draws_components n g : Forall component (fst (draws n g)).
Proof.
  revert g. induction n as [|n IH]; intros g; cbn [draws]; [constructor|].
  pose proof (uniform_range g) as Hx. pose proof (uniform_value g) as Hm.
  destruct (PyRandom.uniform (-1) 1 g) as [x g'].
  specialize (IH g'). destruct (draws n g') as [xs g'']. cbn [fst] in *.
  constructor; [|exact IH]. split; [exact Hx | eauto].
Qed.

Lemma embedding_components D text v :
  embedding D text = Return v → length v = Z.to_nat D ∧ Forall component v.
Proof.
  unfold embedding. destruct (seed_of text) as [seed|e]; [|discriminate].
  cbn. intros [= <-]. split; [apply length_draws | apply draws_components].
Qed.

Lemma collect_components D inputs es :
  collect (map (embedding D) inputs) = Return es →
  Forall (fun v => length v = Z.to_nat D ∧ Forall component v) es.
Proof.
  revert es. induction inputs as [|text inputs IH]; intros es; cbn [map collect].
  - intros [= <-]. constructor.
  - destruct (embedding D text) as [v|e] eqn:Hv; [|discriminate].
    cbn [result_bind]. destruct (collect (map (embedding D) inputs)) as [vs|e];
      [|discriminate].
    cbn. intros [= <-]. constructor; [exact (embedding_components D text v Hv) | now apply IH].
Qed.

End answers.

(** X2. [/embed] answers 200 exactly when normalization returns a list
    and every text of the list can be encoded in UTF-8; in every other case
    the whole request is answered 500, whatever the position of the text
    that cannot be encoded: there is no partial answer. *)
Theorem embed_answers_200_iff `{Runtime} (D : Z) (req : request) (h : heap) :
  (status (fst (dispatch (embed D req) h)) = 200
   ↔ ∃ inputs, normalize_inputs (request_payload req) = Return inputs
               ∧ Forall (fun text => encodable text = true) inputs)
  ∧ (status (fst (dispatch (embed D req) h)) ≠ 200 →
     fst (dispatch (embed D req) h) = error_500).
Proof.
  autorewrite with run.
  destruct (normalize_inputs (request_payload req)) as [inputs|e]; cbn [result_bind].
  - pose proof (collect_returns D inputs) as Hret.
    destruct (collect (map (embedding D) inputs)) as [es|e]; cbn in *.
    + split; [|congruence]. split; [|reflexivity].
      intros _. exists inputs. split; [reflexivity|]. now apply forallb_encodable.
    + split; [|reflexivity]. split; [discriminate|].
      intros (inputs' & [= <-] & Henc). apply forallb_encodable in Henc. congruence.
  - cbn. split; [|reflexivity]. split; [discriminate|].
    intros (inputs & Hin & _). discriminate Hin.
Qed.


(** X4. The shape of the answer of [/embed]: the answer is either the 500
    page or a list of vectors, each of exactly [max(D, 0)] components that
    lie in [-1, 1) (the bound [1.0] is never reached) on the grid of step
    [2^-52]. *)
Theorem embed_response_shape `{Runtime} (D : Z) (req : request) (h : heap) :
  fst (dispatch (embed D req) h) = error_500
  ∨ ∃ embeddings,
      fst (dispatch (embed D req) h) = jsonify (vectors embeddings)
      ∧ Forall (fun v => Z.of_nat (length v) = Z.max D 0
                         ∧ Forall (fun x => (-1 <= x < 1)%Q
                                            ∧ ∃ m : Z, (x == inject_Z m / inject_Z (2 ^ 52))%Q)
                                  v) embeddings.
Proof.
  autorewrite with run.
  destruct (normalize_inputs (request_payload req)) as [inputs|e]; [|now left].
  cbn [result_bind].
  destruct (collect (map (embedding D) inputs)) as [es|e] eqn:Hes; [|now left].
  right. exists es. split; [reflexivity|].
  eapply Forall_impl; [exact (collect_components D inputs es Hes)|].
  intros v [Hlen Hv]. split; [lia | exact Hv].
Qed.

(** ** Normalization of texts *)

Section texts.
Context `{Runtime}.

Lemma str_texts (l : list str) : map str_ (map VStr l) = l.
Proof. induction l as [|s l IH]; [reflexivity|]. cbn [map str_]. now rewrite IH. Qed.

Lemma normalize_inputs_field d :
  normalize_inputs (VDict d) =
  Return match dict_lookup d (lit "inputs") with
         | Some (VStr s) => [s]
         | Some (VList items) => map str_ items
         | _ => []
         end.
Proof.
  unfold normalize_inputs, get, dict_get. cbn [result_bind].
  destruct (dict_lookup d (lit "inputs")) as [[]|]; reflexivity.
Qed.

End texts.

(** X5. Texts pass normalization unchanged: a list of texts under
    [inputs] is normalized to that very list, with its empty texts and
    its repetitions, in its order. *)
Theorem normalize_inputs_texts `{Runtime} (d : list (str * value)) (l : list str) :
  dict_lookup d (lit "inputs") = Some (VList (map VStr l)) →
  normalize_inputs (VDict d) = Return l.
Proof.
  intros Hd. rewrite normalize_inputs_field, Hd. cbv iota beta.
  now rewrite str_texts.
Qed.

(** X6. A single text and the list of that one text are the same
    request: [{"inputs": s}] and [{"inputs": [s]}] get the same answer from
    [/embed] and from [/embed_sparse], whatever other fields the two
    objects hold after [inputs]. *)
Theorem single_text_is_singleton `{Runtime} (D : Z) (s : str) (h : heap)
    (rest rest' : list (str * value)) :
  let one := Json (VDict ((lit "inputs", VStr s) :: rest)) in
  let many := Json (VDict ((lit "inputs", VList [VStr s]) :: rest')) in
  fst (dispatch (embed D one) h) = fst (dispatch (embed D many) h)
  ∧ fst (dispatch (embed_sparse one) h) = fst (dispatch (embed_sparse many) h).
Proof.
  cbn zeta. autorewrite with run. unfold request_payload, or_. cbn [get_json truthy].
  rewrite !normalize_inputs_field. split; reflexivity.
Qed.

(** ** Startup *)

Section startup.
Context `{Runtime}.

Lemma int_1024 : int (lit "1024") 10 = Return 1024.
Proof. reflexivity. Qed.

Lemma int_8091 : int (lit "8091") 10 = Return 8091.
Proof. reflexivity. Qed.

End startup.

(** X7. The port is read after the dimension and before anything is
    served: when the value of [PORT] is not an integer literal, the process
    run as a program ends with [ValueError] and serves no request, whatever
    the value of [EMBEDDING_DIM]. *)
Theorem misconfigured_port_fails_at_startup
    `{Runtime} (environ : gmap str str) (v : str) (e : exn)
    (rs : list (endpoint * request)) :
  environ !! lit "PORT" = Some v →
  int v 10 = Raise e →
  main environ rs = Raise ValueError.
Proof.
  intros Hv Hint. pose proof (int_raises _ _ _ Hint) as ->.
  unfold main. destruct (load_EMBEDDING_DIM environ) as [dim|e'] eqn:Hdim.
  - cbn [result_bind]. unfold environ_get. rewrite Hv, Hint. reflexivity.
  - unfold load_EMBEDDING_DIM in Hdim. now rewrite (int_raises _ _ _ Hdim).
Qed.

(** X8. Defaults: in an environment that sets neither [EMBEDDING_DIM]
    nor [PORT] the process starts, and the vectors of [/embed] have 1024
    components: every answer to [/embed] is the 500 page or a list of
    vectors of 1024 floats. *)
Theorem default_dimension
    `{Runtime} (environ : gmap str str) (rs : list (endpoint * request)) :
  environ !! lit "EMBEDDING_DIM" = None →
  environ !! lit "PORT" = None →
  load_EMBEDDING_DIM environ = Return 1024
  ∧ main environ rs = Return (serve 1024 rs [])
  ∧ ∀ req h,
      fst (dispatch (embed 1024 req) h) = error_500
      ∨ ∃ embeddings,
          fst (dispatch (embed 1024 req) h) = jsonify (vectors embeddings)
          ∧ Forall (fun v => length v = 1024%nat) embeddings.
Proof.
  intros Hdim Hport.
  assert (Hload : load_EMBEDDING_DIM environ = Return 1024).
  { unfold load_EMBEDDING_DIM, environ_get. rewrite Hdim. apply int_1024. }
  split; [exact Hload|]. split.
  - unfold main. rewrite Hload. cbn [result_bind].
    unfold environ_get. rewrite Hport, int_8091. reflexivity.
  - intros req h. autorewrite with run.
    destruct (normalize_inputs (request_payload req)) as [inputs|e]; [|now left].
    cbn [result_bind].
    destruct (collect (map (embedding 1024) inputs)) as [es|e] eqn:Hes; [|now left].
    right. exists es. split; [reflexivity|].
    eapply Forall_impl; [exact (collect_components 1024 inputs es Hes)|].
    intros v [Hlen _]. rewrite Hlen. reflexivity.
Qed.

(** ** From the text to the seed *)

Section seed.

(** Reading bytes as a big-endian integer loses nothing. *)
Lemma be_int_inj l1 l2 a1 a2 :
  length l1 = length l2 → Forall is_byte l1 → Forall is_byte l2 →
  fold_left (fun a b => a * 256 + b) l1 a1 = fold_left (fun a b => a * 256 + b) l2 a2 →
  a1 = a2 ∧ l1 = l2.
Proof.
  revert l2 a1 a2. induction l1 as [|b1 l1 IH]; intros [|b2 l2] a1 a2 Hlen H1 H2;
    try discriminate Hlen; cbn [fold_left].
  - intros ->. split; reflexivity.
  - apply Forall_cons in H1 as [Hb1 H1]. apply Forall_cons in H2 as [Hb2 H2].
    intros Heq. injection Hlen as Hlen.
    destruct (IH l2 _ _ Hlen H1 H2 Heq) as [Ha ->].
    unfold is_byte in *. assert (a1 = a2) by lia. subst a2.
    split; [reflexivity|]. f_equal. lia.
Qed.

Lemma be_int_range l a :
  0 <= a → Forall is_byte l →
  0 <= fold_left (fun a b => a * 256 + b) l a < (a + 1) * 256 ^ Z.of_nat (length l).
Proof.
  intros Ha Hl. revert a Ha. induction Hl as [|b l Hb _ IH]; intros a Ha.
  - cbn. lia.
  - cbn [fold_left length]. unfold is_byte in Hb.
    specialize (IH (a * 256 + b) ltac:(lia)). rewrite Nat2Z.inj_succ, Z.pow_succ_r by lia.
    assert (0 < 256 ^ Z.of_nat (length l)) by (apply Z.pow_pos_nonneg; lia).
    nia.
Qed.

(** The UTF-8 form of a code point tells the code point, also when
    other bytes follow it. *)
Lemma utf8_char_inj c1 c2 bs1 bs2 r1 r2 :
  utf8_char c1 = Some bs1 → utf8_char c2 = Some bs2 →
  bs1 ++ r1 = bs2 ++ r2 → c1 = c2.
Proof.
  unfold utf8_char. rewrite !Z.shiftr_div_pow2 by lia.
  destruct (Z.ltb_spec c1 0); [discriminate|].
  destruct (Z.ltb_spec c2 0); [discriminate|].
  destruct (Z.ltb_spec c1 128), (Z.ltb_spec c2 128);
    [intros [= <-] [= <-] [= ? ?]; assumption | | |];
  repeat match goal with
         | |- context [Z.ltb ?a ?b] => destruct (Z.ltb_spec a b)
         | |- context [Z.leb ?a ?b] => destruct (Z.leb_spec a b)
         end; cbn [andb];
  intros [= <-] [= <-]; cbn [app]; intros Heq;
  repeat match goal with
         | E : _ :: _ = _ :: _ |- _ => injection E as ? E
         end;
  change (2 ^ 6) with 64 in *; change (2 ^ 12) with 4096 in *;
  change (2 ^ 18) with 262144 in *;
  Z.div_mod_to_equations; lia.
Qed.

End seed.

(** Two texts with the same UTF-8 form are the same text. *)
Lemma encode_utf8_inj s1 s2 data :
  encode_utf8 s1 = Return data → encode_utf8 s2 = Return data → s1 = s2.
Proof.
  revert s2 data. induction s1 as [|c1 s1 IH]; intros [|c2 s2] data; cbn [encode_utf8].
  - reflexivity.
  - intros [= <-]. destruct (utf8_char c2) as [bs|] eqn:Hc; [|discriminate].
    destruct (encode_utf8 s2); [|discriminate]. cbn. intros [= Hnil].
    apply app_eq_nil in Hnil as [-> _].
    unfold utf8_char in Hc.
    repeat match type of Hc with
           | context [if ?b then _ else _] => destruct b
           end; discriminate Hc.
  - destruct (utf8_char c1) as [bs|] eqn:Hc; [|discriminate].
    destruct (encode_utf8 s1); [|discriminate]. cbn. intros [= <-] [= Hnil].
    symmetry in Hnil. apply app_eq_nil in Hnil as [-> _].
    unfold utf8_char in Hc.
    repeat match type of Hc with
           | context [if ?b then _ else _] => destruct b
           end; discriminate Hc.
  - destruct (utf8_char c1) as [bs1|] eqn:Hc1; [|discriminate].
    destruct (utf8_char c2) as [bs2|] eqn:Hc2; [|discriminate].
    destruct (encode_utf8 s1) as [r1|] eqn:Hs1; [|discriminate].
    destruct (encode_utf8 s2) as [r2|] eqn:Hs2; [|discriminate].
    cbn. intros [= <-] [= Heq]. symmetry in Heq.
    pose proof (utf8_char_inj _ _ _ _ _ _ Hc1 Hc2 Heq) as ->.
    rewrite Hc1 in Hc2. injection Hc2 as <-.
    apply app_inv_head in Heq as ->.
    f_equal. now apply (IH s2 r2).
Qed.

(** X9. The seed of line 15 keeps the whole digest, and the encoding the
    whole text: for two texts that can be encoded, the seeds are integers
    of 256 bits; they are equal only if the SHA-256 digests of the two
    encodings are equal; and the encodings are equal only if the texts
    are.  Two different texts get the same seed only through a collision
    of SHA-256. *)
Theorem seed_keeps_digest `{Runtime} (s1 s2 : str) (b1 b2 : bytes) :
  encode_utf8 s1 = Return b1 →
  encode_utf8 s2 = Return b2 →
  ∃ n1 n2,
    int (Hashlib.hexdigest (Hashlib.sha256 b1)) 16 = Return n1
    ∧ int (Hashlib.hexdigest (Hashlib.sha256 b2)) 16 = Return n2
    ∧ 0 <= n1 < 2 ^ 256 ∧ 0 <= n2 < 2 ^ 256
    ∧ (n1 = n2 → Hashlib.sha256 b1 = Hashlib.sha256 b2)
    ∧ (b1 = b2 → s1 = s2).
Proof.
  intros Hs1 Hs2.
  assert (Hint : ∀ b, int (Hashlib.hexdigest (Hashlib.sha256 b)) 16
                      = Return (Hashlib.be_int (Hashlib.sha256 b))).
  { intros b. apply int_hexdigest; [|apply sha256_bytes].
    intros Hnil. pose proof (length_sha256 b) as Hlen.
    rewrite Hnil in Hlen. discriminate Hlen. }
  assert (Hrange : ∀ b, 0 <= Hashlib.be_int (Hashlib.sha256 b) < 2 ^ 256).
  { intros b. pose proof (be_int_range (Hashlib.sha256 b) 0 ltac:(lia) (sha256_bytes b))
      as Hr. rewrite length_sha256 in Hr. exact Hr. }
  exists (Hashlib.be_int (Hashlib.sha256 b1)), (Hashlib.be_int (Hashlib.sha256 b2)).
  repeat apply conj; try apply Hint; try apply Hrange.
  - intros Heq.
    apply (be_int_inj _ _ 0 0); [| apply sha256_bytes | apply sha256_bytes | exact Heq].
    now rewrite !length_sha256.
  - intros <-. exact (encode_utf8_inj s1 s2 b1 Hs1 Hs2).
Qed.

(** ** The further properties at concrete inputs *)


(** A list with an empty text and a repetition, beside another field. *)
Lemma normalize_inputs_texts_witness :
  let d := [(lit "model", VStr (lit "m"));
            (lit "inputs", VList (map VStr [lit "b"; []; lit "b"]))] in
  dict_lookup d (lit "inputs") = Some (VList (map VStr [lit "b"; []; lit "b"]))
  ∧ @normalize_inputs ascii_runtime (VDict d) = Return [lit "b"; []; lit "b"].
Proof.
  cbn zeta. split; [reflexivity|].
  apply (@normalize_inputs_texts ascii_runtime
           [(lit "model", VStr (lit "m"));
            (lit "inputs", VList (map VStr [lit "b"; []; lit "b"]))]
           [lit "b"; []; lit "b"]).
  reflexivity.
Defined.

(** [PORT=http], with a dimension that reads well. *)
Lemma misconfigured_port_witness :
  let environ : gmap str str :=
    <[lit "PORT" := lit "http"]> (<[lit "EMBEDDING_DIM" := lit "4"]> ∅) in
  environ !! lit "PORT" = Some (lit "http")
  ∧ @int ascii_runtime (lit "http") 10 = Raise ValueError
  ∧ @main ascii_runtime environ [(Health, NoBody)] = Raise ValueError.
Proof.
  cbn zeta.
  assert (Hv : (<[lit "PORT" := lit "http"]> (<[lit "EMBEDDING_DIM" := lit "4"]> ∅)
                 : gmap str str) !! lit "PORT" = Some (lit "http"))
    by (vm_compute; reflexivity).
  split; [exact Hv|]. split; [reflexivity|].
  exact (@misconfigured_port_fails_at_startup ascii_runtime _ (lit "http") ValueError
           [(Health, NoBody)] Hv eq_refl).
Defined.

(** An environment with neither variable. *)
Lemma default_dimension_witness :
  let environ : gmap str str := <[lit "HOME" := lit "/root"]> ∅ in
  environ !! lit "EMBEDDING_DIM" = None
  ∧ environ !! lit "PORT" = None
  ∧ @load_EMBEDDING_DIM ascii_runtime environ = Return 1024
  ∧ @main ascii_runtime environ [(Health, NoBody)]
    = Return (@serve ascii_runtime 1024 [(Health, NoBody)] []).
Proof.
  cbn zeta.
  assert (Hdim : (<[lit "HOME" := lit "/root"]> ∅ : gmap str str)
                   !! lit "EMBEDDING_DIM" = None) by (vm_compute; reflexivity).
  assert (Hport : (<[lit "HOME" := lit "/root"]> ∅ : gmap str str)
                    !! lit "PORT" = None) by (vm_compute; reflexivity).
  pose proof (@default_dimension ascii_runtime _ [(Health, NoBody)] Hdim Hport)
    as (Hload & Hmain & _).
  split; [exact Hdim|]. split; [exact Hport|]. split; [exact Hload | exact Hmain].
Defined.

(** The texts ["x"] and ["y"]. *)
Lemma seed_keeps_digest_witness :
  encode_utf8 (lit "x") = Return [120]
  ∧ encode_utf8 (lit "y") = Return [121]
  ∧ ∃ n1 n2,
      @int ascii_runtime (Hashlib.hexdigest (Hashlib.sha256 [120])) 16 = Return n1
      ∧ @int ascii_runtime (Hashlib.hexdigest (Hashlib.sha256 [121])) 16 = Return n2
      ∧ 0 <= n1 < 2 ^ 256 ∧ 0 <= n2 < 2 ^ 256
      ∧ (n1 = n2 → Hashlib.sha256 [120] = Hashlib.sha256 [121])
      ∧ ([120] = [121] → lit "x" = lit "y").
Proof.
  split; [reflexivity|]. split; [reflexivity|].
  exact (@seed_keeps_digest ascii_runtime (lit "x") (lit "y") [120] [121] eq_refl eq_refl).
Defined.
